(** * The chat-room runtime of main.py

    A shallow embedding of the WebSocket part of [main.py]: the room
    directory tables it reads and writes, the [ConnectionManager], the
    moderation command handler and the per-connection endpoint.

    Python objects are modelled as follows.
    - A [WebSocket] object is its identity, a natural number; Starlette
      compares connections by identity only.
    - A connection dict [{"ws", "user_id", "username", "role"}] is the
      record [conn]; [manager.rooms] is a finite map from room ids to
      lists of such records, in list order.
    - The SQLite tables [users], [room_roles] and [room_bans] are finite
      maps keyed by their primary keys.  An [int] is an integer of any
      size, as in Python; [sqlite_int] tells those the driver binds.
    - [str] values are [string]s whose characters are the code points
      below 256; [bytes] values are [string]s too, one character per
      byte.
    - An [async def] is a computation in the monad [M]: it reads and
      updates the [world], appends to a trace of transport actions and
      either returns or raises.  A coroutine runs without interleaving
      with the other connections' tasks. *)

From Stdlib Require Import ZArith String Ascii List DecimalString DecimalZ DecimalPos.
From stdpp Require Import gmap strings list fin_maps.

Local Open Scope string_scope.
Local Open Scope list_scope.
Local Open Scope Z_scope.

(** ** Data *)

(** One entry of [manager.rooms[room_id]]. *)
Record conn := Conn {
  c_ws : nat;
  c_user_id : Z;
  c_username : string;
  c_role : string;
}.

#[global] Instance conn_eq_dec : EqDecision conn.
Proof. solve_decision. Defined.

(** One entry of the list built by [get_room_users]. *)
Record member := Member {
  m_user_id : Z;
  m_username : string;
  m_role : string;
}.

#[global] Instance member_eq_dec : EqDecision member.
Proof. solve_decision. Defined.

(** A row of the [users] table as the endpoint uses it. *)
Record user := User {
  u_id : Z;
  u_username : string;
  u_role : string;
}.

(** The JSON objects the server sends, one constructor per ["type"]. *)
Inductive event :=
| user_joined (user_id : Z) (username role : string) (users : list member)
| user_left (user_id : Z) (username : string) (users : list member)
| chat_message (user_id : Z) (username message timestamp : string)
| image_message (user_id : Z) (username url timestamp : string)
| role_update (target_id : Z) (role : string) (users : list member)
| kicked (reason : string)
| warn (reason : string)
| error (message : string).

#[global] Instance event_eq_dec : EqDecision event.
Proof. solve_decision. Defined.

(** What a coroutine does to the outside: [Accept], [Send] and [Close]
    are calls on a WebSocket that returned ([Send w e] is a
    [send_json] that did not raise); [Broadcast] marks one invocation of
    [manager.broadcast]; [WriteFile] is a completed upload write. *)
Inductive action :=
| Accept (w : nat)
| Send (w : nat) (e : event)
| Close (w : nat) (code : Z)
| Broadcast (room_id : Z) (e : event)
| WriteFile (path : string) (content : string).

#[global] Instance action_eq_dec : EqDecision action.
Proof. solve_decision. Defined.

(** The database tables, the manager's dictionary and the transports on
    which a send raises (closed by the peer, by the server, or broken). *)
Record world := World {
  users : gmap Z (string * string);
  room_roles : gmap (Z * Z) string;
  room_bans : gmap (Z * Z) string;
  rooms : gmap Z (list conn);
  closed : gset nat;
}.

Definition set_rooms (r : gmap Z (list conn)) (σ : world) : world :=
  World (users σ) (room_roles σ) (room_bans σ) r (closed σ).

Definition set_room_roles (t : gmap (Z * Z) string) (σ : world) : world :=
  World (users σ) t (room_bans σ) (rooms σ) (closed σ).

Definition set_closed (s : gset nat) (σ : world) : world :=
  World (users σ) (room_roles σ) (room_bans σ) (rooms σ) s.

(** ** Coroutines *)

Inductive exn :=
| UnboundLocalError
| ValueError
| TransportError (w : nat)
| WebSocketDisconnect
| DecodeError
| OSError
| OverflowError.

Inductive outcome (A : Type) :=
| Ok (a : A)
| Raised (e : exn).
Arguments Ok {A} a.
Arguments Raised {A} e.

Record run (A : Type) := Run {
  final : world;
  trace : list action;
  result : outcome A;
}.
Arguments Run {A} _ _ _.
Arguments final {A} _.
Arguments trace {A} _.
Arguments result {A} _.

Definition M (A : Type) : Type := world → run A.

Definition ret {A} (a : A) : M A := λ σ, Run σ [] (Ok a).

Definition raise {A} (e : exn) : M A := λ σ, Run σ [] (Raised e).

Definition bind {A B} (m : M A) (k : A → M B) : M B := λ σ,
  let r := m σ in
  match result r with
  | Ok a => let r' := k a (final r) in
            Run (final r') (trace r ++ trace r') (result r')
  | Raised e => Run (final r) (trace r) (Raised e)
  end.

(** [try: m except Exception: h] *)
Definition try_except {A} (m : M A) (h : exn → M A) : M A := λ σ,
  let r := m σ in
  match result r with
  | Ok a => r
  | Raised e => let r' := h e (final r) in
                Run (final r') (trace r ++ trace r') (result r')
  end.

Definition gets {A} (f : world → A) : M A := λ σ, Run σ [] (Ok (f σ)).

Definition modify (f : world → world) : M unit := λ σ, Run (f σ) [] (Ok tt).

Definition emit (a : action) : M unit := λ σ, Run σ [a] (Ok tt).

Notation "'let*' x ':=' m 'in' k" := (bind m (λ x, k))
  (at level 10, x name, m at level 100, k at level 200).

(** ** Transports *)

Definition WS_1000_NORMAL_CLOSURE : Z := 1000.
Definition WS_1008_POLICY_VIOLATION : Z := 1008.

(** [await ws.send_json(e)] *)
Definition send_json (w : nat) (e : event) : M unit := λ σ,
  if decide (w ∈ closed σ) then Run σ [] (Raised (TransportError w))
  else Run σ [Send w e] (Ok tt).

(** [await ws.close(code=code)] *)
Definition ws_close (w : nat) (code : Z) : M unit :=
  let* _ := emit (Close w code) in
  modify (λ σ, set_closed ({[w]} ∪ closed σ) σ).

(** [await ws.accept()]; a failing handshake raises before any of the
    code below it runs and is not part of the model. *)
Definition ws_accept (w : nat) : M unit := emit (Accept w).

(** ** Database utility functions *)

(** The [sqlite3] driver binds a Python [int] as a 64-bit INTEGER and
    raises [OverflowError] on one that does not fit. *)
Definition sqlite_int (n : Z) : bool := (- 2 ^ 63 <=? n) && (n <? 2 ^ 63).

Definition found {A} (row : option A) : bool :=
  match row with Some _ => true | None => false end.

(** What [conn.execute(sql, params)] and the fetch give, where [a] is
    what the statement reads in the tables and [hit] tells whether that
    is a row.  A row is stored under integers the driver has bound when
    it was written, so that the statement which finds it binds them too;
    where nothing is found, the integers are the caller's and the driver
    refuses those that do not fit. *)
Definition bound {A} (params : list Z) (hit : A → bool) (a : A) : outcome A :=
  if hit a || forallb sqlite_int params then Ok a else Raised OverflowError.

Definition execute {A} (params : list Z) (hit : A → bool) (q : world → A)
    : M A :=
  λ σ, Run σ [] (bound params hit (q σ)).

(** [get_user_by_id], [get_room_roles] and [is_banned] are what the
    statements read in the tables.  The endpoint and the pages, which
    take their integers from the client, run them under [execute];
    [handle_command] runs them on the room and the caller of a session
    that the endpoint has looked up already. *)
Definition get_user_by_id (σ : world) (user_id : Z) : option user :=
  (λ row, User user_id row.1 row.2) <$> users σ !! user_id.

(** The dict [{user_id: role}] of the rows of one room. *)
Definition get_room_roles (σ : world) (room_id : Z) : gmap Z string :=
  default ∅ (map_curry (M1:=gmap Z) (M2:=gmap Z) (room_roles σ) !! room_id).

(** The [INSERT OR REPLACE] binds both integers before it writes. *)
Definition assign_room_role (room_id user_id : Z) (role : string) : M unit :=
  if bool_decide (role = "owner") || bool_decide (role = "host")
  then
    if forallb sqlite_int [room_id; user_id]
    then modify (λ σ, set_room_roles
                        (<[(room_id, user_id) := role]> (room_roles σ)) σ)
    else raise OverflowError
  else ret tt.

Definition is_banned (σ : world) (room_id user_id : Z) : bool :=
  bool_decide (is_Some (room_bans σ !! (room_id, user_id))).

(** ** WebSocket connection manager *)

(** [l.remove(x)]: drops the first entry equal to [x]; [None] stands for
    the [ValueError] of a list without such an entry. *)
Fixpoint list_remove (x : conn) (l : list conn) : option (list conn) :=
  match l with
  | [] => None
  | y :: l' => if decide (y = x) then Some l' else (y ::.) <$> list_remove x l'
  end.

Module ConnectionManager.

(** [self.rooms.get(room_id, [])] *)
Definition room_conns (σ : world) (room_id : Z) : list conn :=
  default [] (rooms σ !! room_id).

(** The dict [get_room_users] builds for one connection. *)
Definition member_of (c : conn) : member :=
  Member (c_user_id c) (c_username c) (c_role c).

Definition get_room_users (σ : world) (room_id : Z) : list member :=
  member_of <$> room_conns σ room_id.

(** The dict returned is the one stored in the list: the result carries
    its position so that a later assignment to it can be written back. *)
Definition get_connection (σ : world) (room_id user_id : Z) : option (nat * conn) :=
  list_find (λ c, c_user_id c = user_id) (room_conns σ room_id).

(** A connection dict after [conn["role"] = role]. *)
Definition with_role (role : string) (c : conn) : conn :=
  Conn (c_ws c) (c_user_id c) (c_username c) role.

(** [target_conn["role"] = role] for the dict at position [i] of
    [self.rooms[room_id]]. *)
Definition set_conn_role (room_id : Z) (i : nat) (role : string) : M unit :=
  modify (λ σ, set_rooms
    (alter (alter (with_role role) i) room_id (rooms σ)) σ).

(** The body of [for conn in list(conns)] in [broadcast]; [conns] is
    the list being pruned. *)
Fixpoint broadcast_loop (snapshot : list conn) (message : event)
    (conns : list conn) : M (list conn) :=
  match snapshot with
  | [] => ret conns
  | conn :: snapshot' =>
      let* conns' :=
        try_except
          (let* _ := send_json (c_ws conn) message in ret conns)
          (λ _, match list_remove conn conns with
                | Some l => ret l
                | None => raise ValueError
                end) in
      broadcast_loop snapshot' message conns'
  end.

Definition broadcast (room_id : Z) (message : event) : M unit :=
  let* _ := emit (Broadcast room_id message) in
  let* conns := gets (λ σ, room_conns σ room_id) in
  let* conns' := broadcast_loop conns message conns in
  modify (λ σ, set_rooms (<[room_id := conns']> (rooms σ)) σ).

Definition connect (room_id : Z) (ws : nat) (u : user) : M unit :=
  let* _ := ws_accept ws in
  let* _ := modify (λ σ,
    if decide (is_Some (rooms σ !! room_id)) then σ
    else set_rooms (<[room_id := []]> (rooms σ)) σ) in
  let* roles := gets (λ σ, get_room_roles σ room_id) in
  let role := default "user" (roles !! u_id u) in
  let conn_info := Conn ws (u_id u) (u_username u) role in
  let* _ := modify (λ σ,
    set_rooms (alter (λ l, l ++ [conn_info]) room_id (rooms σ)) σ) in
  let* users := gets (λ σ, get_room_users σ room_id) in
  broadcast room_id (user_joined (u_id u) (u_username u) role users).

(** The loop of [disconnect].  [var] is the loop variable [conn], [None]
    while it is unbound; it stays bound to the last entry visited when
    the loop ends without a [break]. *)
Fixpoint disconnect_loop (snapshot : list conn) (ws : nat)
    (room_conns : list conn) (var : option conn)
    : outcome (list conn * option conn) :=
  match snapshot with
  | [] => Ok (room_conns, var)
  | c :: snapshot' =>
      if decide (c_ws c = ws) then
        match list_remove c room_conns with
        | Some l => Ok (l, Some c)
        | None => Raised ValueError
        end
      else disconnect_loop snapshot' ws room_conns (Some c)
  end.

Definition disconnect (room_id : Z) (ws : nat) : M conn :=
  let* room_conns := gets (λ σ, room_conns σ room_id) in
  match disconnect_loop room_conns ws room_conns None with
  | Raised e => raise e
  | Ok (room_conns', var) =>
      let* _ := modify (λ σ, set_rooms (<[room_id := room_conns']> (rooms σ)) σ) in
      match var with
      | Some c => ret c
      | None => raise UnboundLocalError
      end
  end.

End ConnectionManager.

(** ** Moderation commands *)

(** The closure [has_privilege] of [handle_command], with the two
    variables it captures as arguments. *)
Definition has_privilege (global_role caller_role action : string) : bool :=
  if String.eqb global_role "sysop" then true
  else if (String.eqb action "kick" || String.eqb action "warn")
          && (String.eqb caller_role "owner" || String.eqb caller_role "host")
  then true
  else if (String.eqb action "assign_host" || String.eqb action "assign_owner")
          && String.eqb caller_role "owner"
  then true
  else false.

Definition unauthorized : string :=
  "You are not authorized to perform this action or unknown command.".

(** The roles [handle_command] reads for its caller. *)
Definition caller_role (σ : world) (room_id caller_id : Z) : string :=
  default "user" (get_room_roles σ room_id !! caller_id).

Definition global_role (σ : world) (caller_id : Z) : string :=
  match get_user_by_id σ caller_id with
  | Some caller => u_role caller
  | None => "user"
  end.

(** The bodies of the [assign_host] and [assign_owner] branches, which
    differ in the role only. *)
Definition assign (room_id target_id : Z) (role : string) : M unit :=
  let* _ := assign_room_role room_id target_id role in
  let* target_conn :=
    gets (λ σ, ConnectionManager.get_connection σ room_id target_id) in
  let* _ := match target_conn with
            | Some (i, _) => ConnectionManager.set_conn_role room_id i role
            | None => ret tt
            end in
  let* users := gets (λ σ, ConnectionManager.get_room_users σ room_id) in
  ConnectionManager.broadcast room_id (role_update target_id role users).

Definition handle_command (room_id caller_id : Z) (command : string)
    (target_id : Z) (reason : string) : M unit :=
  let* caller_role := gets (λ σ, caller_role σ room_id caller_id) in
  let* global_role := gets (λ σ, global_role σ caller_id) in
  let has_privilege := has_privilege global_role caller_role in
  if String.eqb command "kick" && has_privilege "kick" then
    let* target_conn :=
      gets (λ σ, ConnectionManager.get_connection σ room_id target_id) in
    match target_conn with
    | Some (_, c) =>
        let* _ := send_json (c_ws c) (kicked reason) in
        ws_close (c_ws c) WS_1000_NORMAL_CLOSURE
    | None => ret tt
    end
  else if String.eqb command "warn" && has_privilege "warn" then
    let* target_conn :=
      gets (λ σ, ConnectionManager.get_connection σ room_id target_id) in
    match target_conn with
    | Some (_, c) => send_json (c_ws c) (warn reason)
    | None => ret tt
    end
  else if String.eqb command "assign_host" && has_privilege "assign_host" then
    assign room_id target_id "host"
  else if String.eqb command "assign_owner" && has_privilege "assign_owner" then
    assign room_id target_id "owner"
  else
    let* caller_conn :=
      gets (λ σ, ConnectionManager.get_connection σ room_id caller_id) in
    match caller_conn with
    | Some (_, c) => send_json (c_ws c) (error unauthorized)
    | None => ret tt
    end.

(** The decision [handle_command] takes on a command: it is allowed when
    one of the four guarded branches is entered and denied when the
    final [else] is. *)
Definition authorize (global_role caller_role command : string) : bool :=
  String.eqb command "kick" && has_privilege global_role caller_role "kick"
  || String.eqb command "warn" && has_privilege global_role caller_role "warn"
  || String.eqb command "assign_host"
     && has_privilege global_role caller_role "assign_host"
  || String.eqb command "assign_owner"
     && has_privilege global_role caller_role "assign_owner".

(** ** The WebSocket endpoint *)

(** [str.isspace] on the code points below 256. *)
Definition py_isspace (c : ascii) : bool :=
  let n := nat_of_ascii c in
  ((9 <=? n) && (n <=? 13) || (28 <=? n) && (n <=? 32)
   || (n =? 133) || (n =? 160))%nat.

Fixpoint lstrip (s : string) : string :=
  match s with
  | EmptyString => EmptyString
  | String c s' => if py_isspace c then lstrip s' else s
  end.

Fixpoint rstrip (s : string) : string :=
  match s with
  | EmptyString => EmptyString
  | String c s' =>
      match rstrip s' with
      | EmptyString => if py_isspace c then EmptyString else String c EmptyString
      | t => String c t
      end
  end.

(** [s.strip()] *)
Definition strip (s : string) : string := rstrip (lstrip s).

(** [s.split(",", 1)] for an [s] that contains a comma, [None] when it
    does not. *)
Fixpoint split_comma (s : string) : option (string * string) :=
  match s with
  | EmptyString => None
  | String c s' =>
      if Ascii.eqb c "," then Some (EmptyString, s')
      else (λ p, (String c p.1, p.2)) <$> split_comma s'
  end.

(** The text [image_upload] decodes: what follows the first comma of the
    payload, or all of it when it has no comma. *)
Definition encoded_part (img_data : string) : string :=
  match split_comma img_data with
  | Some (_, encoded) => encoded
  | None => img_data
  end.

(** What the process reads from its environment while it handles one
    message: the clock, the random file name, and whether writing the
    upload file goes through. *)
Record env := Env {
  utcnow : string;
  token_hex : string;
  write_fails : bool;
}.

(** The JSON object of one inbound message, read with [data.get]: a field
    is [None] when the key is absent.  [command] and [target_id] have the
    types [handle_command] declares for them. *)
Record inbound := Inbound {
  in_type : option string;
  in_message : option string;
  in_data : option string;
  in_ext : option string;
  in_command : string;
  in_target_id : Z;
  in_reason : option string;
}.

(** What [await websocket.receive_json()] gives. *)
Inductive received :=
| Message (data : inbound)
| Raises (e : exn).

Definition is_type (msg_type : option string) (t : string) : bool :=
  match msg_type with
  | Some s => String.eqb s t
  | None => false
  end.

(** The [finally] block of the endpoint.  [disconnect] returns a
    connection dict, never [None], so the test [if conn:] always passes. *)
Definition teardown (room_id : Z) (websocket : nat) : M unit :=
  let* conn := ConnectionManager.disconnect room_id websocket in
  let* users := gets (λ σ, ConnectionManager.get_room_users σ room_id) in
  ConnectionManager.broadcast room_id
    (user_left (c_user_id conn) (c_username conn) users).

Section Endpoint.

(** Library functions the endpoint calls: [int] on a string ([None] when
    it raises), [str] on an integer, and [base64.b64decode]. *)
Variable py_int : string → option Z.
Variable py_str : Z → string.
Variable b64decode : string → option string.

Definition image_upload (room_id user_id : Z) (username : string)
    (e : env) (img_data ext : string) : M unit :=
  try_except
    (let encoded := encoded_part img_data in
     match b64decode encoded with
     | None => raise DecodeError
     | Some binary_data =>
         let unique_name := (token_hex e ++ ext)%string in
         let* _ := if write_fails e then raise OSError
                   else emit (WriteFile unique_name binary_data) in
         let url := ("/uploads/" ++ unique_name)%string in
         ConnectionManager.broadcast room_id
           (image_message user_id username url (utcnow e))
     end)
    (λ _, ret tt).

(** One turn of the [while True] loop, after [receive_json] returned
    [data]. *)
Definition on_message (room_id user_id : Z) (username : string)
    (e : env) (data : inbound) : M unit :=
  let msg_type := in_type data in
  if is_type msg_type "chat_message" then
    let text := strip (default "" (in_message data)) in
    if negb (String.eqb text "") then
      ConnectionManager.broadcast room_id
        (chat_message user_id username text (utcnow e))
    else ret tt
  else if is_type msg_type "image_upload" then
    let ext := default ".png" (in_ext data) in
    match in_data data with
    | Some img_data =>
        if negb (String.eqb img_data "")
        then image_upload room_id user_id username e img_data ext
        else ret tt
    | None => ret tt
    end
  else if is_type msg_type "command" then
    handle_command room_id user_id (in_command data) (in_target_id data)
      (default "" (in_reason data))
  else ret tt.

(** The [while True] loop on the messages that arrive; an empty list is
    the loop waiting in [receive_json]. *)
Fixpoint message_loop (room_id user_id : Z) (username : string)
    (inputs : list (env * received)) : M unit :=
  match inputs with
  | [] => ret tt
  | (e, Message data) :: inputs' =>
      let* _ := on_message room_id user_id username e data in
      message_loop room_id user_id username inputs'
  | (_, Raises x) :: _ => raise x
  end.

(** [try: loop  except WebSocketDisconnect: pass  finally: teardown].
    The loop has no normal exit, so the [finally] block runs when it
    raised; only [WebSocketDisconnect] is swallowed. *)
Definition serve (room_id user_id : Z) (username : string) (websocket : nat)
    (inputs : list (env * received)) : M unit := λ σ,
  let r := message_loop room_id user_id username inputs σ in
  match result r with
  | Ok _ => r
  | Raised x =>
      let r' := teardown room_id websocket (final r) in
      Run (final r') (trace r ++ trace r')
          match result r' with
          | Raised y => Raised y
          | Ok _ => match x with
                    | WebSocketDisconnect => Ok tt
                    | _ => Raised x
                    end
          end
  end.

(** [cookies] and [query_params] are the values of
    [websocket.cookies.get("user_id")] and
    [websocket.query_params.get("user_id")]. *)
Definition websocket_endpoint (websocket : nat) (room_id : Z)
    (cookies query_params : option string)
    (inputs : list (env * received)) : M unit :=
  let reject := ws_close websocket WS_1008_POLICY_VIOLATION in
  let user_id_cookie :=
    match cookies with
    | Some c => if negb (String.eqb c "") then Some c
                else py_str <$> (query_params ≫= py_int)
    | None => py_str <$> (query_params ≫= py_int)
    end in
  match user_id_cookie with
  | None => reject
  | Some user_id_cookie =>
      match py_int user_id_cookie with
      | None => reject
      | Some user_id =>
          let* user :=
            execute [user_id] found (λ σ, get_user_by_id σ user_id) in
          match user with
          | None => reject
          | Some user =>
              let* banned :=
                execute [room_id; user_id] id
                  (λ σ, is_banned σ room_id user_id) in
              if banned then reject
              else
                let* _ := ConnectionManager.connect room_id websocket user in
                serve room_id user_id (u_username user) websocket inputs
          end
      end
  end.

End Endpoint.

(** * Observations *)

Import ConnectionManager.

(** The invocations of [manager.broadcast] in a trace. *)
Definition broadcasts (t : list action) : list (Z * event) :=
  omap (λ a, match a with Broadcast r e => Some (r, e) | _ => None end) t.

(** The events delivered to the transport [w]. *)
Definition received_by (w : nat) (t : list action) : list event :=
  omap (λ a, match a with
             | Send w' e => if decide (w' = w) then Some e else None
             | _ => None
             end) t.

(** One successful [send_json] of [message] per connection of [l]. *)
Definition sends (message : event) (l : list conn) : list action :=
  (λ c, Send (c_ws c) message) <$> l.

(** The connections a world can still send to. *)
Definition alive (σ : world) (c : conn) : Prop := c_ws c ∉ closed σ.

#[global] Instance alive_dec σ c : Decision (alive σ c).
Proof. unfold alive. apply _. Defined.

(** The role the directory gives a user in a room, ["user"] when the
    table has no row. *)
Definition role_of (σ : world) (room_id user_id : Z) : string :=
  default "user" (room_roles σ !! (room_id, user_id)).

(** Every registered connection caches the role the directory holds. *)
Definition cache_coherent (σ : world) : Prop :=
  map_Forall (λ room_id conns,
    Forall (λ c, c_role c = role_of σ room_id (c_user_id c)) conns) (rooms σ).

#[global] Instance cache_coherent_dec σ : Decision (cache_coherent σ).
Proof. unfold cache_coherent. apply _. Defined.

(** The room's list once the first connection of [target_id], if there is
    one, has been given [role]. *)
Definition promoted (target_id : Z) (role : string) (conns : list conn)
    : list conn :=
  match list_find (λ c, c_user_id c = target_id) conns with
  | Some (i, _) => alter (with_role role) i conns
  | None => conns
  end.

(** The user holds at most one connection in the list. *)
Definition at_most_one (user_id : Z) (conns : list conn) : Prop :=
  ∀ i j c1 c2, conns !! i = Some c1 → conns !! j = Some c2 →
    c_user_id c1 = user_id → c_user_id c2 = user_id → i = j.

(** The identity token of a connection attempt as the protocol describes
    it: the cookie, and the query parameter when there is no cookie.  A
    cookie with an empty value counts as no cookie. *)
Definition identity_token (cookies query_params : option string) : option string :=
  match cookies with
  | Some c => if String.eqb c "" then query_params else Some c
  | None => query_params
  end.

(** The integer a connection attempt presents, when its token reads as
    one. *)
Definition token_id (py_int : string → option Z)
    (cookies query_params : option string) : option Z :=
  identity_token cookies query_params ≫= py_int.

(** The user a connection attempt authenticates as, if any: the token
    must read as an integer and that integer must be the id of a user. *)
Definition authenticate (py_int : string → option Z) (σ : world)
    (cookies query_params : option string) : option user :=
  token ← identity_token cookies query_params;
  user_id ← py_int token;
  get_user_by_id σ user_id.

(** The run of an endpoint that only closes its socket with the
    policy-violation code. *)
Definition rejected (websocket : nat) (σ : world) : run unit :=
  Run (set_closed ({[websocket]} ∪ closed σ) σ)
      [Close websocket WS_1008_POLICY_VIOLATION] (Ok tt).

(** Whether [strip] leaves nothing of a string. *)
Fixpoint all_space (s : string) : bool :=
  match s with
  | EmptyString => true
  | String c s' => py_isspace c && all_space s'
  end.

(** ** Sample values

    Room 42 with its owner A, a host B and a plain user C, each on one
    connection; a second connection of C; and plain decimal readings of
    [int] and [str], with one line of the base64 table. *)

Definition conn_A : conn := Conn 1 10 "A" "owner".
Definition conn_B : conn := Conn 2 11 "B" "host".
Definition conn_C : conn := Conn 3 12 "C" "user".
Definition conn_C' : conn := Conn 4 12 "C" "user".

Definition room42 : world :=
  World {[10 := ("A", "user"); 11 := ("B", "user"); 12 := ("C", "user");
          13 := ("D", "user")]}
        {[(42, 10) := "owner"; (42, 11) := "host"]}
        {[(42, 13) := "spam"]}
        {[42 := [conn_A; conn_B; conn_C]]}
        ∅.

Definition room42_two_tabs : world :=
  set_rooms {[42 := [conn_A; conn_B; conn_C; conn_C']]} room42.

Definition decimal_int (s : string) : option Z :=
  Z.of_int <$> NilZero.int_of_string s.

Definition decimal_str (n : Z) : string :=
  NilZero.string_of_int (Z.to_int n).

Definition b64_table (s : string) : option string :=
  if String.eqb s "aGk=" then Some "hi" else None.

Definition noon : env := Env "2024-05-01T12:00:00" "00112233aabbccdd" false.

Definition say_hi : inbound :=
  Inbound (Some "chat_message") (Some "  hi ") None None "" 0 None.

Definition upload_hi : inbound :=
  Inbound (Some "image_upload") None (Some "data:text/plain;base64,aGk=")
    (Some ".txt") "" 0 None.

(** * The rest of the directory and of the session

    The table functions the chat runtime does not call itself, the
    identity the HTTP pages use, and the observations the properties of
    whole sessions are stated with. *)

Definition set_room_bans (t : gmap (Z * Z) string) (σ : world) : world :=
  World (users σ) (room_roles σ) t (rooms σ) (closed σ).

Definition remove_room_role (room_id user_id : Z) : M unit :=
  modify (λ σ, set_room_roles (delete (room_id, user_id) (room_roles σ)) σ).

Definition ban_user (room_id user_id : Z) (reason : string) : M unit :=
  modify (λ σ, set_room_bans (<[(room_id, user_id) := reason]> (room_bans σ)) σ).


(** [user_id_cookie] is the value of [request.cookies.get("user_id")]. *)
Definition current_user (py_int : string → option Z) (σ : world)
    (user_id_cookie : option string) : option user :=
  match user_id_cookie with
  | Some c =>
      if negb (String.eqb c "") then
        match py_int c with
        | Some user_id_int => get_user_by_id σ user_id_int
        | None => None
        end
      else None
  | None => None
  end.

(** A coroutine keeps a property of the world, whether it returns or
    raises. *)
Definition keeps {A : Type} (P : world → Prop) (m : M A) : Prop :=
  ∀ σ, P σ → P (final (m σ)).

(** What identifies a connection: its socket and its user, not its role. *)
Definition ident (c : conn) : nat * Z * string :=
  (c_ws c, c_user_id c, c_username c).

(** A property of each room's list of connections. *)
Definition rooms_all (Q : Z → list conn → Prop) (σ : world) : Prop :=
  ∀ k, Q k (room_conns σ k).

(** Every connection of the list is, up to its role, one of [S]. *)
Definition same_up_to_role (S : Z → nat * Z * string → Prop) (k : Z)
    (l : list conn) : Prop :=
  ∀ c, c ∈ l → S k (ident c).

(** No socket occurs twice in the list. *)
Definition distinct_sockets (k : Z) (l : list conn) : Prop :=
  NoDup (c_ws <$> l).

(** The tables a session reads but does not write. *)
Definition tables_are (u : gmap Z (string * string)) (b : gmap (Z * Z) string)
    (σ : world) : Prop :=
  users σ = u ∧ room_bans σ = b.

(** The input is not a promotion command. *)
Definition no_promotion (input : env * received) : Prop :=
  match input.2 with
  | Message data =>
      is_type (in_type data) "command" = true →
      in_command data ≠ "assign_host" ∧ in_command data ≠ "assign_owner"
  | Raises _ => True
  end.

(** A run with another bans table in its final world. *)
Definition with_bans {A : Type} (t : gmap (Z * Z) string) (r : run A) : run A :=
  Run (set_room_bans t (final r)) (trace r) (result r).

(** The coroutine neither reads nor writes the bans table. *)
Definition bans_blind {A : Type} (m : M A) : Prop :=
  ∀ t σ, m (set_room_bans t σ) = with_bans t (m σ).

Definition head_is_space (s : string) : bool :=
  match s with
  | EmptyString => false
  | String c _ => py_isspace c
  end.

Fixpoint last_is_space (s : string) : bool :=
  match s with
  | EmptyString => false
  | String c EmptyString => py_isspace c
  | String _ s' => last_is_space s'
  end.

Fixpoint has_comma (s : string) : bool :=
  match s with
  | EmptyString => false
  | String c s' => Ascii.eqb c "," || has_comma s'
  end.

(** Whether the loop passes over a message without doing anything: a
    chat whose text is blank, an upload without data, or a type the loop
    does not know. *)
Definition ignored (data : inbound) : bool :=
  if is_type (in_type data) "chat_message"
  then String.eqb (strip (default "" (in_message data))) ""
  else if is_type (in_type data) "image_upload"
  then match in_data data with
       | Some img_data => String.eqb img_data ""
       | None => true
       end
  else negb (is_type (in_type data) "command").

Definition heard (input : env * received) : Prop :=
  match input.2 with
  | Message data => ignored data = false
  | Raises _ => True
  end.

#[global] Instance heard_dec input : Decision (heard input).
Proof. unfold heard. destruct (input.2); apply _. Defined.

(** One more sample value: a warning for C. *)
Definition warn_C : inbound :=
  Inbound (Some "command") None None None "warn" 12 (Some "calm down").

(** * The HTTP side

    The account and room handlers, over the same tables as the chat.  A
    handler takes what it reads of the request, the [user_id] cookie and
    the parsed form, and answers with a [response]; a handler that
    writes returns the new state of the database too. *)

(** The database as the HTTP handlers see it: the world of the chat,
    which holds the [username] and [role] columns of [users], the two
    columns of [users] the chat never reads, the [rooms] table, and the
    counters that [AUTOINCREMENT] keeps in [sqlite_sequence]. *)
Record site := Site {
  chat : world;
  user_email : gmap Z string;
  user_password_hash : gmap Z string;
  users_seq : Z;
  room_table : gmap Z (string * string * Z);
  rooms_seq : Z;
}.

Definition set_users (t : gmap Z (string * string)) (σ : world) : world :=
  World t (room_roles σ) (room_bans σ) (rooms σ) (closed σ).

(** A row of [users] as [SELECT *] returns it. *)
Record account := Account {
  a_id : Z;
  a_username : string;
  a_email : string;
  a_password_hash : string;
  a_role : string;
}.

(** A row of [rooms] joined with the name of its owner. *)
Record room_row := RoomRow {
  r_id : Z;
  r_name : string;
  r_description : string;
  r_owner_id : Z;
  r_owner_username : string;
}.

(** The rowid an [INTEGER PRIMARY KEY AUTOINCREMENT] column gives the
    next row: one more than the largest rowid the table holds or has
    ever held. *)
Definition max_key {A : Type} (t : gmap Z A) : Z :=
  map_fold (λ k _ acc, Z.max k acc) 0 t.

Definition next_rowid {A : Type} (seq : Z) (t : gmap Z A) : Z :=
  Z.max seq (max_key t) + 1.

Definition account_at (s : site) (user_id : Z) : option account :=
  match users (chat s) !! user_id, user_email s !! user_id,
        user_password_hash s !! user_id with
  | Some (username, role), Some email, Some password_hash =>
      Some (Account user_id username email password_hash role)
  | _, _, _ => None
  end.

(** [SELECT * FROM users WHERE email = ?] and [fetchone]; the column is
    [UNIQUE], so that at most one row matches. *)
Definition get_user_by_email (s : site) (email : string) : option account :=
  head (omap (λ kv : Z * string,
                if String.eqb kv.2 email then account_at s kv.1 else None)
             (map_to_list (user_email s))).

(** The two [UNIQUE] constraints of [users]. *)
Definition username_taken (s : site) (username : string) : bool :=
  bool_decide (map_Exists (λ _ row, row.1 = username) (users (chat s))).

Definition email_taken (s : site) (email : string) : bool :=
  bool_decide (map_Exists (λ _ e, e = email) (user_email s)).

(** What the join of [get_room] reads in the tables; [room_detail],
    which takes the room id from the URL, runs it under [bound]. *)
Definition get_room (s : site) (room_id : Z) : option room_row :=
  match room_table s !! room_id with
  | Some (name, description, owner_id) =>
      match users (chat s) !! owner_id with
      | Some (owner_username, _) =>
          Some (RoomRow room_id name description owner_id owner_username)
      | None => None
      end
  | None => None
  end.

Definition create_room (name description : string) (owner_id : Z) (s : site)
    : site * Z :=
  let room_id := next_rowid (rooms_seq s) (room_table s) in
  (Site (set_room_roles (<[(room_id, owner_id) := "owner"]> (room_roles (chat s)))
                        (chat s))
        (user_email s) (user_password_hash s) (users_seq s)
        (<[room_id := (name, description, owner_id)]> (room_table s))
        room_id,
   room_id).

(** What a handler answers: a template with its context, a redirect
    with the cookie it sets, or a plain page; [ServerError e] stands for
    an exception [e] that leaves the handler, which the framework
    answers with status 500. *)
Inductive cookie_header :=
| no_cookie
| set_cookie (key value : string) (max_age : Z).

Inductive template :=
| register_html (error : option string)
| login_html (error : option string)
| admin_login_html (error : option string)
| room_html (room : room_row) (user : user) (role : string)
            (roles : gmap Z string).

Inductive response :=
| TemplateResponse (t : template)
| RedirectResponse (url : string) (status_code : Z) (cookie : cookie_header)
| HTMLResponse (content : string) (status_code : Z)
| ServerError (e : exn).

Definition HTTP_302_FOUND : Z := 302.
Definition HTTP_303_SEE_OTHER : Z := 303.
Definition HTTP_403_FORBIDDEN : Z := 403.

(** The body of a POST once [parse_qs] has read it: each field that is
    present with its first value; [parse_qs] leaves out the fields whose
    value is blank. *)
Definition form := gmap string string.

(** [data.get(key, [""])[0]] *)
Definition field (data : form) (key : string) : string :=
  default "" (data !! key).

Definition one_week : Z := 60 * 60 * 24 * 7.

Section Http.

Variable py_int : string → option Z.
Variable py_str : Z → string.
Variable py_lower : string → string.
(** [pwd_hasher.hash] under a salt, and whether [pwd_hasher.verify]
    returns rather than raises. *)
Variable argon2_hash : string → string → string.
Variable argon2_verify : string → string → bool.

Definition create_user (username email password salt : string) (s : site)
    : site * option Z :=
  let password_hash := argon2_hash salt password in
  if username_taken s username || email_taken s email then (s, None)
  else
    let user_id := next_rowid (users_seq s) (users (chat s)) in
    (Site (set_users (<[user_id := (username, "user")]> (users (chat s)))
                     (chat s))
          (<[user_id := email]> (user_email s))
          (<[user_id := password_hash]> (user_password_hash s))
          user_id (room_table s) (rooms_seq s),
     Some user_id).

Definition verify_password (stored_hash password : string) : bool :=
  argon2_verify stored_hash password.

Definition logged_in (user_id : Z) : response :=
  RedirectResponse "/rooms" HTTP_303_SEE_OTHER
    (set_cookie "user_id" (py_str user_id) one_week).

Definition register_post (data : form) (salt : string) (s : site)
    : site * response :=
  let username := strip (field data "username") in
  let email := py_lower (strip (field data "email")) in
  let password := field data "password" in
  let confirm_password := field data "confirm_password" in
  if negb (String.eqb password confirm_password)
  then (s, TemplateResponse (register_html (Some "Passwords do not match.")))
  else
    match create_user username email password salt s with
    | (s', None) =>
        (s', TemplateResponse
               (register_html (Some "Username or email already exists.")))
    | (s', Some user_id) => (s', logged_in user_id)
    end.

Definition login_post (data : form) (s : site) : response :=
  let email := py_lower (strip (field data "email")) in
  let password := field data "password" in
  match get_user_by_email s email with
  | Some user =>
      if verify_password (a_password_hash user) password
      then logged_in (a_id user)
      else TemplateResponse (login_html (Some "Invalid credentials."))
  | None => TemplateResponse (login_html (Some "Invalid credentials."))
  end.

Definition admin_login_post (data : form) (s : site) : response :=
  let email := py_lower (strip (field data "email")) in
  let password := field data "password" in
  match get_user_by_email s email with
  | Some user =>
      if verify_password (a_password_hash user) password
      then if negb (String.eqb (a_role user) "sysop")
           then TemplateResponse
                  (admin_login_html (Some "Not an administrator."))
           else logged_in (a_id user)
      else TemplateResponse (admin_login_html (Some "Invalid credentials."))
  | None => TemplateResponse (admin_login_html (Some "Invalid credentials."))
  end.

(** [current_user(request)] as a handler runs it: what [current_user]
    reads in the tables, behind the driver's binding of the integer of
    the cookie. *)
Definition request_user (σ : world) (user_id_cookie : option string)
    : outcome (option user) :=
  match user_id_cookie with
  | Some c =>
      if negb (String.eqb c "") then
        match py_int c with
        | Some user_id_int =>
            bound [user_id_int] found (get_user_by_id σ user_id_int)
        | None => Ok None
        end
      else Ok None
  | None => Ok None
  end.

Definition rooms_create (cookie : option string) (data : form) (s : site)
    : site * response :=
  match request_user (chat s) cookie with
  | Raised e => (s, ServerError e)
  | Ok None => (s, RedirectResponse "/login" HTTP_302_FOUND no_cookie)
  | Ok (Some user) =>
      let name := strip (field data "name") in
      let description := strip (field data "description") in
      if String.eqb name ""
      then (s, RedirectResponse "/rooms" HTTP_303_SEE_OTHER no_cookie)
      else
        let '(s', room_id) := create_room name description (u_id user) s in
        (s', RedirectResponse ("/rooms/" ++ py_str room_id)%string
               HTTP_303_SEE_OTHER no_cookie)
  end.

Definition room_detail (cookie : option string) (room_id : Z) (s : site)
    : response :=
  match request_user (chat s) cookie with
  | Raised e => ServerError e
  | Ok None => RedirectResponse "/login" HTTP_302_FOUND no_cookie
  | Ok (Some user) =>
      match bound [room_id] found (get_room s room_id) with
      | Raised e => ServerError e
      | Ok None => HTMLResponse "Room not found" 404
      | Ok (Some room) =>
          match bound [room_id; u_id user] id
                  (is_banned (chat s) room_id (u_id user)) with
          | Raised e => ServerError e
          | Ok true =>
              HTMLResponse "You are banned from this room." HTTP_403_FORBIDDEN
          | Ok false =>
              let roles := get_room_roles (chat s) room_id in
              let role := default "user" (roles !! u_id user) in
              TemplateResponse (room_html room user role roles)
          end
      end
  end.

End Http.

(** ** Sample values of the HTTP side

    Stand-ins for [str.lower] and for the password hasher, a database
    around [room42] and a few forms. *)

Definition ascii_lower (s : string) : string :=
  string_of_list_ascii
    ((λ c, let n := nat_of_ascii c in
           if (65 <=? n)%nat && (n <=? 90)%nat then ascii_of_nat (n + 32) else c)
       <$> list_ascii_of_string s).

(** A hasher that keeps the password as it is, and its check. *)
Definition cleartext_hash (salt password : string) : string := password.
Definition cleartext_verify (stored_hash password : string) : bool :=
  String.eqb stored_hash password.

Definition site42 : site :=
  Site room42
       {[10 := "a@example.org"; 11 := "b@example.org"; 12 := "c@example.org";
         13 := "d@example.org"]}
       {[10 := "pw-a"; 11 := "pw-b"; 12 := "pw-c"; 13 := "pw-d"]}
       13
       {[42 := ("Lobby", "", 10)]}
       42.

Definition sign_up : form :=
  {["username" := " Eve"; "email" := " Eve@Example.org ";
    "password" := "pw-e"; "confirm_password" := "pw-e"]}.


Definition log_in : form :=
  {["email" := "eve@example.org  "; "password" := "pw-e"]}.

Definition new_room : form := {["name" := " Games "]}.

Definition log_in_D : form :=
  {["email" := "D@example.org"; "password" := "pw-d"]}.

(** * Properties *)

(** ** Running coroutines *)

Lemma run_eta {A} (r : run A) : Run (final r) (trace r) (result r) = r.
Proof. by destruct r. Qed.

Lemma bind_gets {A B} (f : world → A) (k : A → M B) σ :
  bind (gets f) k σ = k (f σ) σ.
Proof. unfold bind, gets. simpl. apply run_eta. Qed.

Lemma bind_ret {A B} (a : A) (k : A → M B) σ : bind (ret a) k σ = k a σ.
Proof. unfold bind, ret. simpl. apply run_eta. Qed.

Lemma bind_modify {B} (f : world → world) (k : unit → M B) σ :
  bind (modify f) k σ = k tt (f σ).
Proof. unfold bind, modify. simpl. apply run_eta. Qed.

Lemma bind_emit {B} (a : action) (k : unit → M B) σ :
  bind (emit a) k σ =
    Run (final (k tt σ)) (a :: trace (k tt σ)) (result (k tt σ)).
Proof. done. Qed.

Lemma bind_raise {A B} (e : exn) (k : A → M B) σ :
  bind (raise e) k σ = Run σ [] (Raised e).
Proof. done. Qed.

Lemma bind_execute {A B} params hit (q : world → A) (k : A → M B) σ :
  bind (execute params hit q) k σ
  = if hit (q σ) || forallb sqlite_int params then k (q σ) σ
    else Run σ [] (Raised OverflowError).
Proof.
  unfold bind, execute, bound.
  destruct (hit (q σ) || forallb sqlite_int params); simpl; [|done].
  apply run_eta.
Qed.

(** ** The directory *)

Lemma get_room_roles_lookup σ room_id user_id :
  get_room_roles σ room_id !! user_id = room_roles σ !! (room_id, user_id).
Proof.
  unfold get_room_roles. rewrite <-lookup_map_curry.
  by destruct (map_curry (room_roles σ) !! room_id).
Qed.

Lemma caller_role_role_of σ room_id caller_id :
  caller_role σ room_id caller_id = role_of σ room_id caller_id.
Proof. unfold caller_role, role_of. by rewrite get_room_roles_lookup. Qed.

(** ** Lists of connections *)

Lemma list_remove_middle x pre post :
  Forall (λ y, y ≠ x) pre → list_remove x (pre ++ x :: post) = Some (pre ++ post).
Proof.
  induction 1 as [|y pre Hy _ IH]; simpl.
  - by rewrite decide_True.
  - by rewrite decide_False, IH.
Qed.

Lemma room_conns_set_rooms r σ room_id :
  ConnectionManager.room_conns (set_rooms r σ) room_id = default [] (r !! room_id).
Proof. done. Qed.

Lemma alter_app_present (m : gmap Z (list conn)) k l x :
  m !! k = Some l → alter (λ l, l ++ [x]) k m = <[k := l ++ [x]]> m.
Proof.
  intros Hk. apply map_eq. intros j. rewrite lookup_alter, lookup_insert.
  destruct (decide (k = j)) as [->|]; [by rewrite Hk|done].
Qed.

Lemma broadcasts_sends message l : broadcasts (sends message l) = [].
Proof. by induction l. Qed.

Lemma received_by_sends w message l :
  received_by w (sends message l) =
    (λ _, message) <$> filter (λ c, c_ws c = w) l.
Proof.
  induction l as [|c l IH]; [done|].
  destruct (decide (c_ws c = w)) as [Hw|Hw].
  - rewrite filter_cons_True by done. simpl.
    rewrite decide_True by done. simpl. f_equal. apply IH.
  - rewrite filter_cons_False by done. simpl.
    rewrite decide_False by done. apply IH.
Qed.

(** ** Broadcast *)

(** The loop keeps the part of the list it has already visited and found
    alive, and drops each connection whose send raises. *)
Lemma broadcast_loop_spec message σ snapshot pre :
  Forall (alive σ) pre →
  broadcast_loop snapshot message (pre ++ snapshot) σ =
    Run σ (sends message (filter (alive σ) snapshot))
        (Ok (pre ++ filter (alive σ) snapshot)).
Proof.
  revert pre. induction snapshot as [|c snapshot IH]; intros pre Hpre.
  - done.
  - simpl. unfold bind at 1, try_except, bind, send_json.
    destruct (decide (c_ws c ∈ closed σ)) as [Hc|Hc]; simpl.
    + rewrite list_remove_middle.
      2:{ eapply Forall_impl; [exact Hpre|]. intros y Hy ->. by apply Hy. }
      simpl. rewrite IH by done. simpl.
      rewrite filter_cons_False by (unfold alive; tauto). done.
    + rewrite (cons_middle c pre snapshot), (assoc_L (++)).
      rewrite IH by (apply Forall_app; split; [done|by constructor]).
      simpl. rewrite filter_cons_True by done.
      by rewrite <-(assoc_L (++)).
Qed.

Lemma broadcast_spec room_id message σ :
  broadcast room_id message σ =
    Run (set_rooms (<[room_id := filter (alive σ) (room_conns σ room_id)]> (rooms σ)) σ)
        (Broadcast room_id message
           :: sends message (filter (alive σ) (room_conns σ room_id)))
        (Ok tt).
Proof.
  pose proof (broadcast_loop_spec message σ (room_conns σ room_id) []
                (Forall_nil_2 _)) as H.
  rewrite app_nil_l in H.
  unfold broadcast. rewrite bind_emit, bind_gets.
  unfold bind at 1 2 3. rewrite H. simpl. by rewrite app_nil_r.
Qed.

Lemma connect_spec room_id ws u σ :
  let role := default "user" (get_room_roles σ room_id !! u_id u) in
  let conns := room_conns σ room_id ++ [Conn ws (u_id u) (u_username u) role] in
  let message := user_joined (u_id u) (u_username u) role (member_of <$> conns) in
  connect room_id ws u σ =
    Run (set_rooms (<[room_id := filter (alive σ) conns]> (rooms σ)) σ)
        (Accept ws :: Broadcast room_id message
           :: sends message (filter (alive σ) conns))
        (Ok tt).
Proof.
  intros role conns message. unfold connect, ws_accept.
  rewrite bind_emit, bind_modify.
  destruct (decide (is_Some (rooms σ !! room_id))) as [[l Hl]|Hl].
  - rewrite bind_gets, bind_modify, bind_gets, broadcast_spec.
    fold role. rewrite (alter_app_present _ _ l) by done.
    unfold get_room_users. rewrite room_conns_set_rooms, lookup_insert_eq.
    assert (room_conns σ room_id = l) as Hc by (unfold room_conns; by rewrite Hl).
    subst conns message. rewrite Hc. simpl.
    by rewrite insert_insert_eq.
  - apply eq_None_not_Some in Hl.
    rewrite bind_gets, bind_modify, bind_gets, broadcast_spec.
    change (get_room_roles (set_rooms _ σ) room_id) with (get_room_roles σ room_id).
    fold role. cbn [rooms set_rooms].
    rewrite (alter_app_present _ _ []) by apply lookup_insert_eq.
    unfold get_room_users. rewrite room_conns_set_rooms, lookup_insert_eq.
    assert (room_conns σ room_id = []) as Hc by (unfold room_conns; by rewrite Hl).
    subst conns message. rewrite Hc. simpl.
    by rewrite !insert_insert_eq.
Qed.


(** ** The command authorizer *)

Lemma has_privilege_sysop caller_role action :
  has_privilege "sysop" caller_role action = true.
Proof. reflexivity. Qed.

(** C1. The decision [handle_command] takes is a function of the
    caller's global role, the caller's room role and the command alone:
    kick and warn are allowed exactly for a sysop, an owner or a host,
    assign_host and assign_owner exactly for a sysop or an owner, and
    every other command is denied.  On the four commands the decision is
    the value of [has_privilege]. *)
Theorem authorize_table (global_role caller_role command : string) :
  (authorize global_role caller_role command = true ↔
     (command = "kick" ∨ command = "warn")
       ∧ (global_role = "sysop" ∨ caller_role = "owner" ∨ caller_role = "host")
     ∨ (command = "assign_host" ∨ command = "assign_owner")
       ∧ (global_role = "sysop" ∨ caller_role = "owner"))
  ∧ (command = "kick" ∨ command = "warn" ∨ command = "assign_host"
     ∨ command = "assign_owner" →
     authorize global_role caller_role command
       = has_privilege global_role caller_role command).
Proof.
  unfold authorize, has_privilege.
  destruct (String.eqb_spec global_role "sysop"),
    (String.eqb_spec caller_role "owner"),
    (String.eqb_spec caller_role "host"),
    (String.eqb_spec command "kick"),
    (String.eqb_spec command "warn"),
    (String.eqb_spec command "assign_host"),
    (String.eqb_spec command "assign_owner");
    subst; cbn; try discriminate; intuition congruence.
Qed.

(** ** Broadcasting to a room *)

(** C3. A broadcast returns normally whatever transports are broken; it
    delivers the event, in list order, to exactly the connections of the
    room's list at the start whose send goes through; afterwards the
    room's list, and so every later snapshot, holds exactly those
    connections; nothing else in the world changes. *)
Theorem broadcast_delivers_and_prunes (room_id : Z) (message : event) (σ : world) :
  let snapshot := ConnectionManager.room_conns σ room_id in
  let r := ConnectionManager.broadcast room_id message σ in
  result r = Ok tt
  ∧ trace r = Broadcast room_id message
                :: sends message (filter (alive σ) snapshot)
  ∧ (∀ c, c ∈ snapshot → alive σ c → Send (c_ws c) message ∈ trace r)
  ∧ ConnectionManager.room_conns (final r) room_id = filter (alive σ) snapshot
  ∧ (∀ c, c ∈ ConnectionManager.room_conns (final r) room_id
          ↔ c ∈ snapshot ∧ alive σ c)
  ∧ ConnectionManager.get_room_users (final r) room_id
      = member_of <$> filter (alive σ) snapshot
  ∧ (∀ k, k ≠ room_id → rooms (final r) !! k = rooms σ !! k)
  ∧ users (final r) = users σ ∧ room_roles (final r) = room_roles σ
  ∧ room_bans (final r) = room_bans σ ∧ closed (final r) = closed σ.
Proof.
  intros snapshot r. subst r. rewrite broadcast_spec. fold snapshot. simpl.
  assert (ConnectionManager.room_conns
            (set_rooms (<[room_id:=filter (alive σ) snapshot]> (rooms σ)) σ)
            room_id = filter (alive σ) snapshot) as Hafter.
  { by rewrite room_conns_set_rooms, lookup_insert_eq. }
  split_and!; try done.
  - intros c Hc Halive. apply elem_of_cons. right.
    apply (list_elem_of_fmap_2 (λ c, Send (c_ws c) message)).
    by apply list_elem_of_filter.
  - intros c. rewrite Hafter, list_elem_of_filter. tauto.
  - unfold ConnectionManager.get_room_users. by rewrite Hafter.
  - intros k Hk. by rewrite lookup_insert_ne.
Qed.

(** ** Joining a room *)

(** C4. [connect] registers the connection with the role the directory
    holds for the user in the room, ["user"] when it holds none, and
    makes exactly one broadcast, a [user_joined] event whose [users]
    field lists the user; the connection stays registered unless its own
    transport failed during that broadcast. *)
Theorem connect_registers_and_announces (room_id : Z) (ws : nat) (u : user)
    (σ : world) :
  let role := role_of σ room_id (u_id u) in
  let conn_info := Conn ws (u_id u) (u_username u) role in
  let conns := ConnectionManager.room_conns σ room_id ++ [conn_info] in
  let users := member_of <$> conns in
  let r := ConnectionManager.connect room_id ws u σ in
  result r = Ok tt
  ∧ broadcasts (trace r)
      = [(room_id, user_joined (u_id u) (u_username u) role users)]
  ∧ Member (u_id u) (u_username u) role ∈ users
  ∧ ConnectionManager.room_conns (final r) room_id = filter (alive σ) conns
  ∧ (ws ∉ closed σ →
       conn_info ∈ ConnectionManager.room_conns (final r) room_id
       ∧ received_by ws (trace r)
           = (λ _, user_joined (u_id u) (u_username u) role users)
               <$> filter (λ c, c_ws c = ws) (filter (alive σ) conns))
  ∧ room_roles (final r) = room_roles σ.
Proof.
  intros role conn_info conns users r. subst r.
  rewrite connect_spec. rewrite get_room_roles_lookup.
  fold (role_of σ room_id (u_id u)). fold role. fold conn_info. fold conns.
  fold users. simpl.
  assert (ConnectionManager.room_conns
            (set_rooms (<[room_id:=filter (alive σ) conns]> (rooms σ)) σ)
            room_id = filter (alive σ) conns) as Hafter.
  { by rewrite room_conns_set_rooms, lookup_insert_eq. }
  split_and!; try done.
  - by rewrite broadcasts_sends.
  - apply (list_elem_of_fmap_2 member_of conns conn_info).
    apply elem_of_app. right. by apply list_elem_of_singleton.
  - intros Hws. split.
    + rewrite Hafter. apply list_elem_of_filter. split; [done|].
      apply elem_of_app. right. by apply list_elem_of_singleton.
    + by rewrite received_by_sends.
Qed.

(** ** Leaving a room *)

Lemma disconnect_loop_no_match snapshot ws full var :
  Forall (λ c, c_ws c ≠ ws) snapshot →
  disconnect_loop snapshot ws full var
    = Ok (full, from_option Some var (last snapshot)).
Proof.
  intros H. revert var. induction H as [|c snapshot Hc _ IH]; intros var.
  - done.
  - simpl. rewrite decide_False by done. rewrite IH, last_cons.
    by destruct (last snapshot).
Qed.

Lemma disconnect_loop_match pre c post ws full var :
  Forall (λ c, c_ws c ≠ ws) pre → c_ws c = ws →
  disconnect_loop (pre ++ c :: post) ws full var
    = match list_remove c full with
      | Some l => Ok (l, Some c)
      | None => Raised ValueError
      end.
Proof.
  intros H Hc. revert var. induction H as [|c' pre Hc' _ IH]; intros var; simpl.
  - by rewrite decide_True.
  - rewrite decide_False by done. apply IH.
Qed.

(** When the room's list holds an entry for the socket, [disconnect]
    removes the first such entry and returns it. *)
Lemma disconnect_found room_id ws σ pre c post :
  room_conns σ room_id = pre ++ c :: post →
  Forall (λ c, c_ws c ≠ ws) pre → c_ws c = ws →
  disconnect room_id ws σ
    = Run (set_rooms (<[room_id := pre ++ post]> (rooms σ)) σ) [] (Ok c).
Proof.
  intros Hl Hpre Hc. unfold disconnect. rewrite bind_gets, Hl.
  rewrite disconnect_loop_match by done.
  rewrite list_remove_middle.
  2:{ eapply Forall_impl; [exact Hpre|]. intros y Hy ->. by apply Hy. }
  by rewrite bind_modify.
Qed.

(** When it holds none, [disconnect] removes nothing and returns the last
    entry of the list, whose socket is another one; on an empty list the
    [return] raises. *)
Lemma disconnect_not_found room_id ws σ :
  Forall (λ c, c_ws c ≠ ws) (room_conns σ room_id) →
  disconnect room_id ws σ
    = Run (set_rooms (<[room_id := room_conns σ room_id]> (rooms σ)) σ) []
          match last (room_conns σ room_id) with
          | Some c => Ok c
          | None => Raised UnboundLocalError
          end.
Proof.
  intros H. unfold disconnect. rewrite bind_gets.
  rewrite disconnect_loop_no_match by done.
  rewrite bind_modify. by destruct (last (room_conns σ room_id)).
Qed.

(** C2. In room 42, B's socket is torn down twice.  The first teardown
    removes B and announces that B left.  The second finds no entry for
    the socket, yet [disconnect] returns C's connection, so a second
    [user_left] goes out, naming C, who stays registered.  In a room
    without connections the same call raises. *)
Theorem second_disconnect_returns_other_connection :
  let σ1 := final (teardown 42 2 room42) in
  room_conns σ1 42 = [conn_A; conn_C]
  ∧ broadcasts (trace (teardown 42 2 room42))
      = [(42, user_left 11 "B" [member_of conn_A; member_of conn_C])]
  ∧ result (disconnect 42 2 σ1) = Ok conn_C
  ∧ broadcasts (trace (teardown 42 2 σ1))
      = [(42, user_left 12 "C" [member_of conn_A; member_of conn_C])]
  ∧ room_conns (final (teardown 42 2 σ1)) 42 = [conn_A; conn_C]
  ∧ result (disconnect 7 2 room42) = Raised UnboundLocalError
  ∧ rooms (final (disconnect 7 2 room42)) !! 7 = Some [].
Proof. vm_compute. split_and!; reflexivity. Qed.

(** ** Moderation commands *)

(** A command the authorizer denies runs the final [else] branch. *)
Lemma denied_branch_eq room_id caller_id command target_id reason σ :
  authorize (global_role σ caller_id) (caller_role σ room_id caller_id) command
    = false →
  handle_command room_id caller_id command target_id reason σ
    = match get_connection σ room_id caller_id with
      | Some (_, c) => send_json (c_ws c) (error unauthorized) σ
      | None => Run σ [] (Ok tt)
      end.
Proof.
  unfold authorize. intros H.
  apply orb_false_elim in H as [H H4].
  apply orb_false_elim in H as [H H3].
  apply orb_false_elim in H as [H1 H2].
  unfold handle_command. rewrite !bind_gets.
  rewrite H1, H2, H3, H4, bind_gets.
  by destruct (get_connection σ room_id caller_id) as [[i c]|].
Qed.

(** An allowed promotion runs [assign] with the role of the command. *)
Lemma assign_branch_eq room_id caller_id command target_id reason σ :
  command = "assign_host" ∨ command = "assign_owner" →
  authorize (global_role σ caller_id) (caller_role σ room_id caller_id) command
    = true →
  handle_command room_id caller_id command target_id reason σ
    = assign room_id target_id
        (if String.eqb command "assign_host" then "host" else "owner") σ.
Proof.
  intros Hc Hauth. unfold handle_command. rewrite !bind_gets.
  unfold authorize in Hauth.
  destruct Hc as [-> | ->]; cbn in Hauth |- *;
    rewrite ?orb_false_r in Hauth; by rewrite Hauth.
Qed.

(** C5, as the code has it.  A denied command, known or unknown, leaves
    the whole world as it was, makes no broadcast, and sends at most one
    event: the [error], to the first connection registered in the room
    under the caller's user id.  With no such connection nothing is sent;
    with one whose transport is closed the send raises. *)
Theorem handle_command_denied room_id caller_id command target_id reason σ :
  authorize (global_role σ caller_id) (caller_role σ room_id caller_id) command
    = false →
  let r := handle_command room_id caller_id command target_id reason σ in
  final r = σ
  ∧ broadcasts (trace r) = []
  ∧ match get_connection σ room_id caller_id with
    | Some (_, c) =>
        c_user_id c = caller_id
        ∧ if decide (alive σ c)
          then trace r = [Send (c_ws c) (error unauthorized)] ∧ result r = Ok tt
          else trace r = [] ∧ result r = Raised (TransportError (c_ws c))
    | None => trace r = [] ∧ result r = Ok tt
    end.
Proof.
  intros H r. subst r. rewrite denied_branch_eq by done.
  destruct (get_connection σ room_id caller_id) as [[i c]|] eqn:Hfind; [|done].
  apply list_find_Some in Hfind as (_ & Hid & _).
  unfold send_json, alive.
  destruct (decide (c_ws c ∈ closed σ)) as [Hc|Hc].
  - rewrite decide_False by tauto. done.
  - rewrite decide_True by done. done.
Qed.

Lemma handle_command_denied_witness :
  authorize (global_role room42 12) (caller_role room42 42 12) "assign_owner"
    = false
  ∧ let r := handle_command 42 12 "assign_owner" 11 "" room42 in
    final r = room42
    ∧ broadcasts (trace r) = []
    ∧ match get_connection room42 42 12 with
      | Some (_, c) =>
          c_user_id c = 12
          ∧ if decide (alive room42 c)
            then trace r = [Send (c_ws c) (error unauthorized)]
                 ∧ result r = Ok tt
            else trace r = [] ∧ result r = Raised (TransportError (c_ws c))
      | None => trace r = [] ∧ result r = Ok tt
      end.
Proof.
  split; [reflexivity|].
  apply (handle_command_denied 42 12 "assign_owner" 11 "" room42).
  reflexivity.
Defined.

(** C5, as stated, fails.  C's transport breaks, a broadcast prunes C's
    connection, and C's command, read before the break, is then denied:
    no [error] event is sent to anyone. *)
Lemma denied_caller_without_connection :
  let σ := final (broadcast 42 (chat_message 10 "A" "hi" "t0")
                    (set_closed {[3%nat]} room42)) in
  let r := handle_command 42 12 "assign_owner" 11 "" σ in
  authorize (global_role σ 12) (caller_role σ 42 12) "assign_owner" = false
  ∧ room_conns σ 42 = [conn_A; conn_B]
  ∧ trace r = []
  ∧ ¬ ∃ w, Send w (error unauthorized) ∈ trace r.
Proof.
  vm_compute. split_and!; try reflexivity.
  intros [w Hw]. by apply not_elem_of_nil in Hw.
Qed.

(** C10. An authorized kick or warn whose target has no connection in
    the room changes nothing and sends nothing. *)
Theorem moderation_without_target_is_noop room_id caller_id command target_id
    reason σ :
  command = "kick" ∨ command = "warn" →
  authorize (global_role σ caller_id) (caller_role σ room_id caller_id) command
    = true →
  get_connection σ room_id target_id = None →
  handle_command room_id caller_id command target_id reason σ = Run σ [] (Ok tt).
Proof.
  intros Hc Hauth Hnone. unfold handle_command. rewrite !bind_gets.
  unfold authorize in Hauth.
  destruct Hc as [-> | ->]; cbn in Hauth |- *;
    rewrite !orb_false_r in Hauth; by rewrite Hauth, bind_gets, Hnone.
Qed.

Lemma moderation_without_target_is_noop_witness :
  ("kick" = "kick" ∨ "kick" = "warn")
  ∧ authorize (global_role room42 11) (caller_role room42 42 11) "kick" = true
  ∧ get_connection room42 42 99 = None
  ∧ handle_command 42 11 "kick" 99 "bye" room42 = Run room42 [] (Ok tt).
Proof.
  split_and!; [by left|reflexivity|reflexivity|].
  apply (moderation_without_target_is_noop 42 11 "kick" 99 "bye" room42);
    [by left|reflexivity|reflexivity].
Defined.

(** C6. Room 42 is coherent while C holds two connections.  The owner
    promotes C to host: the directory and C's first connection get the
    new role, the second connection keeps ["user"], and the [role_update]
    snapshot lists C under both roles. *)
Theorem assign_host_leaves_second_connection_stale :
  let r := handle_command 42 10 "assign_host" 12 "" room42_two_tabs in
  cache_coherent room42_two_tabs
  ∧ result r = Ok tt
  ∧ role_of (final r) 42 12 = "host"
  ∧ room_conns (final r) 42 = [conn_A; conn_B; Conn 3 12 "C" "host"; conn_C']
  ∧ broadcasts (trace r)
      = [(42, role_update 12 "host"
                [member_of conn_A; member_of conn_B; Member 12 "C" "host";
                 Member 12 "C" "user"])]
  ∧ ¬ cache_coherent (final r).
Proof.
  split_and!; try (vm_compute; reflexivity).
  - apply (bool_decide_unpack _). vm_compute. reflexivity.
  - apply (bool_decide_unpack _). vm_compute. reflexivity.
Qed.

(** ** Where the cached roles follow the directory *)

Lemma insert_alter_room (m : gmap Z (list conn)) k f l :
  <[k := l]> (alter f k m) = <[k := l]> m.
Proof.
  apply map_eq. intros j. rewrite !lookup_insert.
  destruct (decide (k = j)); [done|]. by rewrite lookup_alter_ne.
Qed.

(** What a promotion does, for any room and target the driver binds. *)
Lemma assign_spec room_id target_id role σ :
  role = "host" ∨ role = "owner" →
  forallb sqlite_int [room_id; target_id] = true →
  let conns := promoted target_id role (room_conns σ room_id) in
  let message := role_update target_id role (member_of <$> conns) in
  assign room_id target_id role σ
  = Run (World (users σ) (<[(room_id, target_id) := role]> (room_roles σ))
               (room_bans σ)
               (<[room_id := filter (alive σ) conns]> (rooms σ)) (closed σ))
        (Broadcast room_id message :: sends message (filter (alive σ) conns))
        (Ok tt).
Proof.
  intros Hrole Hint conns message. unfold assign, assign_room_role.
  assert (bool_decide (role = "owner") || bool_decide (role = "host") = true)
    as -> by (by destruct Hrole as [-> | ->]).
  rewrite Hint, bind_modify, bind_gets. unfold get_connection.
  change (room_conns (set_room_roles _ σ) room_id) with (room_conns σ room_id).
  subst message conns. unfold promoted.
  destruct (list_find _ (room_conns σ room_id)) as [[i c]|] eqn:Hfind.
  - unfold set_conn_role. rewrite bind_modify, bind_gets, broadcast_spec.
    assert (rooms σ !! room_id = Some (room_conns σ room_id)) as Hroom.
    { unfold room_conns in *. destruct (rooms σ !! room_id); [done|].
      done. }
    unfold get_room_users. rewrite !room_conns_set_rooms.
    cbn [rooms set_rooms set_room_roles].
    rewrite lookup_alter_eq, Hroom. simpl.
    by rewrite insert_alter_room.
  - rewrite bind_ret, bind_gets, broadcast_spec. done.
Qed.

(** A promotion whose room or target the driver refuses raises before
    anything is written or sent. *)
Lemma assign_overflow room_id target_id role σ :
  role = "host" ∨ role = "owner" →
  forallb sqlite_int [room_id; target_id] = false →
  assign room_id target_id role σ = Run σ [] (Raised OverflowError).
Proof.
  intros Hrole Hint. unfold assign, assign_room_role.
  assert (bool_decide (role = "owner") || bool_decide (role = "host") = true)
    as -> by (by destruct Hrole as [-> | ->]).
  by rewrite Hint, bind_raise.
Qed.

Lemma promoted_roles target_id role (old : Z → string) conns :
  at_most_one target_id conns →
  Forall (λ c, c_role c = old (c_user_id c)) conns →
  Forall (λ c, c_role c = if decide (c_user_id c = target_id) then role
                          else old (c_user_id c))
         (promoted target_id role conns).
Proof.
  intros Hone Hold. unfold promoted.
  destruct (list_find _ conns) as [[i c0]|] eqn:Hfind.
  - apply list_find_Some in Hfind as (Hi & Hid & _).
    apply Forall_lookup. intros j c Hj.
    destruct (decide (i = j)) as [<-|Hij].
    + rewrite list_lookup_alter_eq, Hi in Hj. simplify_eq/=.
      by rewrite decide_True.
    + rewrite list_lookup_alter_ne in Hj by done.
      rewrite decide_False.
      * exact (Forall_lookup_1 _ _ _ _ Hold Hj).
      * intros Hc. apply Hij. by eapply Hone.
  - apply list_find_None in Hfind.
    apply Forall_lookup. intros j c Hj.
    rewrite decide_False by exact (Forall_lookup_1 _ _ _ _ Hfind Hj).
    exact (Forall_lookup_1 _ _ _ _ Hold Hj).
Qed.

Lemma room_conns_coherent σ room_id :
  cache_coherent σ →
  Forall (λ c, c_role c = role_of σ room_id (c_user_id c)) (room_conns σ room_id).
Proof.
  intros Hσ. unfold room_conns.
  destruct (rooms σ !! room_id) as [l|] eqn:Hl; [|by constructor].
  by apply (Hσ room_id l).
Qed.

Lemma Forall_filter_alive σ (P : conn → Prop) l :
  Forall P l → Forall P (filter (alive σ) l).
Proof.
  intros H. apply Forall_forall. intros c Hc%list_elem_of_filter.
  eapply Forall_forall; [exact H|]. tauto.
Qed.

(** A promotion keeps the cached roles in step with the directory when
    the target holds at most one connection in the room. *)
Lemma assign_keeps_coherence room_id target_id role σ :
  role = "host" ∨ role = "owner" →
  at_most_one target_id (room_conns σ room_id) →
  cache_coherent σ →
  cache_coherent (final (assign room_id target_id role σ)).
Proof.
  intros Hrole Hone Hσ.
  destruct (forallb sqlite_int [room_id; target_id]) eqn:Hint;
    [|by rewrite assign_overflow].
  rewrite assign_spec by done. simpl.
  unfold cache_coherent. simpl. apply map_Forall_lookup. intros k l Hk.
  rewrite lookup_insert in Hk. destruct (decide (room_id = k)) as [<-|Hne].
  - simplify_eq/=. apply Forall_filter_alive.
    eapply Forall_impl.
    + apply (promoted_roles target_id role (role_of σ room_id)); [done|].
      by apply room_conns_coherent.
    + intros c Hc. simpl in Hc. rewrite Hc. unfold role_of. simpl.
      rewrite lookup_insert. 
      destruct (decide (c_user_id c = target_id)) as [->|Hu].
      * by rewrite decide_True.
      * rewrite decide_False by congruence. done.
  - eapply Forall_impl; [by apply (Hσ k l)|].
    intros c Hc. simpl in Hc. rewrite Hc. unfold role_of. simpl.
    rewrite lookup_insert_ne by congruence. done.
Qed.

Lemma broadcast_keeps_coherence room_id message σ :
  cache_coherent σ → cache_coherent (final (broadcast room_id message σ)).
Proof.
  intros Hσ. rewrite broadcast_spec. intros k l Hk. simpl in Hk.
  rewrite lookup_insert in Hk. destruct (decide (room_id = k)) as [<-|Hne].
  - simplify_eq/=. apply Forall_filter_alive. exact (room_conns_coherent σ room_id Hσ).
  - exact (Hσ k l Hk).
Qed.

Lemma connect_keeps_coherence room_id ws u σ :
  cache_coherent σ → cache_coherent (final (connect room_id ws u σ)).
Proof.
  intros Hσ. rewrite connect_spec. intros k l Hk. simpl in Hk.
  rewrite lookup_insert in Hk. destruct (decide (room_id = k)) as [<-|Hne].
  - simplify_eq/=. apply Forall_filter_alive. apply Forall_app. split.
    + exact (room_conns_coherent σ room_id Hσ).
    + constructor; [|done]. simpl. by rewrite get_room_roles_lookup.
  - exact (Hσ k l Hk).
Qed.

Lemma disconnect_keeps_coherence room_id ws σ :
  cache_coherent σ → cache_coherent (final (disconnect room_id ws σ)).
Proof.
  intros Hσ.
  destruct (list_find (λ c, c_ws c = ws) (room_conns σ room_id))
    as [[i c]|] eqn:Hfind.
  - apply list_find_Some in Hfind as (Hi & Hc & Hbefore).
    pose proof (take_drop_middle _ _ _ Hi) as Hsplit.
    rewrite (disconnect_found room_id ws σ (take i (room_conns σ room_id)) c
               (drop (S i) (room_conns σ room_id))); [|done| |done].
    + intros k l Hk. simpl in Hk.
      rewrite lookup_insert in Hk. destruct (decide (room_id = k)) as [<-|Hne].
      * simplify_eq/=. pose proof (room_conns_coherent σ room_id Hσ) as H.
        rewrite <-Hsplit in H. apply Forall_app in H as [H1 H2].
        apply Forall_cons in H2 as [_ H2].
        exact (proj2 (Forall_app _ _ _) (conj H1 H2)).
      * exact (Hσ k l Hk).
    + apply Forall_lookup. intros j y Hj.
      apply lookup_take_Some in Hj as [Hj Hlt]. by eapply Hbefore.
  - apply list_find_None in Hfind. rewrite disconnect_not_found by done.
    intros k l Hk. simpl in Hk.
    rewrite lookup_insert in Hk. destruct (decide (room_id = k)) as [<-|Hne].
    + simplify_eq/=. exact (room_conns_coherent σ room_id Hσ).
    + exact (Hσ k l Hk).
Qed.

(** A denied command of a user with two connections: the [error] goes to
    the first one registered, whichever of the two sent the command. *)
Example denied_error_goes_to_first_connection :
  let r := handle_command 42 12 "assign_owner" 11 "" room42_two_tabs in
  trace r = [Send 3%nat (error unauthorized)]
  ∧ received_by 4%nat (trace r) = [].
Proof. vm_compute. split; reflexivity. Qed.

(** ** Trimming *)

Lemma lstrip_empty s : lstrip s = "" ↔ all_space s = true.
Proof.
  induction s as [|c s IH]; simpl; [done|].
  destruct (py_isspace c); simpl; [done|]. split; discriminate.
Qed.

Lemma lstrip_head s :
  lstrip s = "" ∨ ∃ c t, lstrip s = String c t ∧ py_isspace c = false.
Proof.
  induction s as [|c s IH]; simpl; [by left|].
  destruct (py_isspace c) eqn:Hc; [done|]. right. eauto.
Qed.

Lemma rstrip_head c t : py_isspace c = false → rstrip (String c t) ≠ "".
Proof. intros Hc. simpl. rewrite Hc. by destruct (rstrip t). Qed.

(** [strip] leaves the empty string exactly of the strings made of
    whitespace only. *)
Lemma strip_empty s : strip s = "" ↔ all_space s = true.
Proof.
  unfold strip. rewrite <-lstrip_empty.
  destruct (lstrip_head s) as [->|(c & t & -> & Hc)]; [done|].
  split; [|discriminate]. intros H. by apply rstrip_head in H.
Qed.

(** How [strip] cuts a string: whitespace, then what it keeps, then
    whitespace, where what it keeps neither begins nor ends with
    whitespace. *)
Lemma lstrip_split s :
  ∃ l, s = (l ++ lstrip s)%string ∧ all_space l = true
       ∧ head_is_space (lstrip s) = false.
Proof.
  induction s as [|c s (l & Hs & Hl & Hh)]; [by exists ""|]. simpl.
  destruct (py_isspace c) eqn:Hc.
  - exists (String c l). split_and!; [|by simpl; rewrite Hc|done].
    change (String c s = String c (l ++ lstrip s)%string). by f_equal.
  - exists "". simpl. by rewrite Hc.
Qed.

Lemma rstrip_split t :
  ∃ r, t = (rstrip t ++ r)%string ∧ all_space r = true
       ∧ last_is_space (rstrip t) = false.
Proof.
  induction t as [|c t (r & Ht & Hr & Hl)]; [by exists ""|]. simpl.
  destruct (rstrip t) as [|d u] eqn:Hrs.
  - change (t = r) in Ht. subst r. destruct (py_isspace c) eqn:Hc.
    + exists (String c t). simpl. by rewrite Hc, Hr.
    + exists t. simpl. by rewrite Hc.
  - exists r. split_and!; [|done|done].
    change (String c t = String c (String d u ++ r)%string). by f_equal.
Qed.

Lemma rstrip_keeps_head t : head_is_space t = false → head_is_space (rstrip t) = false.
Proof.
  destruct t as [|c t]; [done|]. simpl. intros Hc.
  destruct (rstrip t); [by rewrite Hc|done].
Qed.

Lemma strip_split s :
  ∃ l r, s = (l ++ strip s ++ r)%string
         ∧ all_space l = true ∧ all_space r = true
         ∧ head_is_space (strip s) = false ∧ last_is_space (strip s) = false.
Proof.
  destruct (lstrip_split s) as (l & Hs & Hl & Hh).
  destruct (rstrip_split (lstrip s)) as (r & Ht & Hr & Hla).
  exists l, r. unfold strip. split_and!; try done.
  - by rewrite <-Ht.
  - by apply rstrip_keeps_head.
Qed.

(** ** The endpoint *)

Lemma decimal_int_str n : decimal_int (decimal_str n) = Some n.
Proof.
  unfold decimal_int, decimal_str. rewrite NilZero.isi.
  - simpl. by rewrite DecimalZ.of_to.
  - destruct n; simpl; try discriminate.
    intros [= H]. by apply Unsigned.to_uint_nonnil in H.
  - destruct n; simpl; try discriminate.
    intros [= H]. by apply Unsigned.to_uint_nonnil in H.
Qed.

Lemma get_user_by_id_id σ n u : get_user_by_id σ n = Some u → u_id u = n.
Proof.
  unfold get_user_by_id. destruct (users σ !! n); [|done]. by intros [= <-].
Qed.

Section EndpointProperties.

Variable py_int : string → option Z.
Variable py_str : Z → string.
Variable b64decode : string → option string.

(** [int(str(n))] is [n]. *)
Hypothesis py_int_str : ∀ n, py_int (py_str n) = Some n.

(** The endpoint closes the socket unless the attempt authenticates as a
    user who is not banned; then it joins the room and serves.  Where a
    lookup finds nothing for an integer the driver refuses, the
    [OverflowError] leaves the endpoint. *)
Lemma websocket_endpoint_token websocket room_id cookies query_params inputs σ :
  websocket_endpoint py_int py_str b64decode websocket room_id
    cookies query_params inputs σ =
    match token_id py_int cookies query_params with
    | None => rejected websocket σ
    | Some n =>
        match get_user_by_id σ n with
        | None => if sqlite_int n then rejected websocket σ
                  else Run σ [] (Raised OverflowError)
        | Some user =>
            if is_banned σ room_id (u_id user) then rejected websocket σ
            else if forallb sqlite_int [room_id; u_id user]
            then (let* _ := connect room_id websocket user in
                  serve b64decode room_id (u_id user) (u_username user)
                    websocket inputs) σ
            else Run σ [] (Raised OverflowError)
        end
    end.
Proof.
  assert (Huser : ∀ n,
    (let* user := execute [n] found (λ σ, get_user_by_id σ n) in
     match user with
     | None => ws_close websocket WS_1008_POLICY_VIOLATION
     | Some user =>
         let* banned := execute [room_id; n] id (λ σ, is_banned σ room_id n) in
         if banned then ws_close websocket WS_1008_POLICY_VIOLATION
         else
           let* _ := connect room_id websocket user in
           serve b64decode room_id n (u_username user) websocket inputs
     end) σ =
    match get_user_by_id σ n with
    | None => if sqlite_int n then rejected websocket σ
              else Run σ [] (Raised OverflowError)
    | Some user =>
        if is_banned σ room_id (u_id user) then rejected websocket σ
        else if forallb sqlite_int [room_id; u_id user]
        then (let* _ := connect room_id websocket user in
              serve b64decode room_id (u_id user) (u_username user)
                websocket inputs) σ
        else Run σ [] (Raised OverflowError)
    end).
  { intros n. rewrite bind_execute.
    destruct (get_user_by_id σ n) as [u|] eqn:Hu.
    - cbn [found orb]. rewrite bind_execute, (get_user_by_id_id _ _ _ Hu).
      unfold id. by destruct (is_banned σ room_id n).
    - cbn [found orb forallb]. rewrite andb_true_r.
      by destruct (sqlite_int n). }
  unfold websocket_endpoint, token_id, identity_token.
  destruct cookies as [c|]; simpl.
  - destruct (String.eqb c ""); simpl.
    + destruct query_params as [q|]; simpl; [|done].
      destruct (py_int q) as [n|]; simpl; [|done].
      rewrite py_int_str. apply Huser.
    + destruct (py_int c); simpl; [apply Huser|done].
  - destruct query_params as [q|]; simpl; [|done].
    destruct (py_int q) as [n|]; simpl; [|done].
    rewrite py_int_str. apply Huser.
Qed.

Lemma authenticate_token_id cookies query_params σ :
  authenticate py_int σ cookies query_params
  = token_id py_int cookies query_params ≫= get_user_by_id σ.
Proof.
  unfold authenticate, token_id.
  destruct (identity_token cookies query_params) as [t|]; [|done].
  simpl. by destruct (py_int t).
Qed.


(** C7. An attempt that does not authenticate, or authenticates as a
    user banned from the room, touches no room state: nothing is
    accepted, sent or broadcast and the rooms and the directory tables
    are as before.  It is closed with code 1008, except where the token
    reads as an integer beyond 64 bits that is the id of no user: there
    the lookup of the user raises [OverflowError], nothing in the
    endpoint catches it, and the run ends with that exception and
    without the close that the sibling branches make. *)
Theorem oversized_token_is_not_closed websocket room_id cookies query_params
    inputs σ :
  authenticate py_int σ cookies query_params = None
  ∨ (∃ user, authenticate py_int σ cookies query_params = Some user
             ∧ is_banned σ room_id (u_id user) = true) →
  let r := websocket_endpoint py_int py_str b64decode websocket room_id
             cookies query_params inputs σ in
  let oversized :=
    match token_id py_int cookies query_params with
    | Some n => negb (found (get_user_by_id σ n)) && negb (sqlite_int n)
    | None => false
    end in
  rooms (final r) = rooms σ
  ∧ room_roles (final r) = room_roles σ
  ∧ room_bans (final r) = room_bans σ
  ∧ users (final r) = users σ
  ∧ (∀ a, a ∈ trace r → a = Close websocket 1008)
  ∧ if oversized
    then r = Run σ [] (Raised OverflowError)
    else r = Run (set_closed ({[websocket]} ∪ closed σ) σ)
               [Close websocket 1008] (Ok tt).
Proof.
  intros H r oversized. subst r oversized.
  rewrite websocket_endpoint_token. rewrite authenticate_token_id in H.
  destruct (token_id py_int cookies query_params) as [n|].
  - simpl in H. destruct H as [-> | (u & -> & ->)].
    + cbn [found negb andb]. destruct (sqlite_int n); cbn [negb].
      * split_and!; try done. by intros a ->%list_elem_of_singleton.
      * split_and!; try done. by intros a []%elem_of_nil.
    + cbn [found negb andb]. split_and!; try done.
      by intros a ->%list_elem_of_singleton.
  - split_and!; try done. by intros a ->%list_elem_of_singleton.
Qed.

(** An attempt that authenticates as a user who is not banned, for a
    room and under an id the driver binds, joins the room as that user. *)
Lemma websocket_endpoint_accepts websocket room_id cookies query_params
    inputs σ user :
  authenticate py_int σ cookies query_params = Some user →
  is_banned σ room_id (u_id user) = false →
  forallb sqlite_int [room_id; u_id user] = true →
  websocket_endpoint py_int py_str b64decode websocket room_id
    cookies query_params inputs σ
  = (let* _ := connect room_id websocket user in
     serve b64decode room_id (u_id user) (u_username user) websocket inputs) σ.
Proof.
  intros H1 H2 H3. rewrite websocket_endpoint_token.
  rewrite authenticate_token_id in H1.
  destruct (token_id py_int cookies query_params) as [n|]; [|done].
  simpl in H1. by rewrite H1, H2, H3.
Qed.

(** C8. The text of a [chat_message] is split into leading whitespace,
    a trimmed text that neither begins nor ends with whitespace, and
    trailing whitespace.  When the trimmed text is empty the message
    does nothing; otherwise it is answered by one broadcast to the room,
    of a [chat_message] event with the sender's id and name, the trimmed
    text and the time. *)
Theorem chat_message_ignored_or_broadcast room_id user_id username e data σ :
  in_type data = Some "chat_message" →
  let r := on_message b64decode room_id user_id username e data σ in
  ∃ l text t,
    default "" (in_message data) = (l ++ text ++ t)%string
    ∧ all_space l = true ∧ all_space t = true
    ∧ head_is_space text = false ∧ last_is_space text = false
    ∧ text = strip (default "" (in_message data))
    ∧ (text = "" → r = Run σ [] (Ok tt))
    ∧ (text ≠ "" →
         r = broadcast room_id
               (chat_message user_id username text (utcnow e)) σ
         ∧ result r = Ok tt
         ∧ broadcasts (trace r)
             = [(room_id, chat_message user_id username text (utcnow e))]).
Proof.
  intros Ht r. subst r.
  destruct (strip_split (default "" (in_message data)))
    as (l & t & Hs & Hl & Hr & Hh & Hla).
  exists l, (strip (default "" (in_message data))), t.
  split_and!; try done.
  - unfold on_message. rewrite Ht.
    change (is_type (Some "chat_message") "chat_message") with true.
    cbv iota. by intros ->.
  - unfold on_message. rewrite Ht.
    change (is_type (Some "chat_message") "chat_message") with true.
    cbv iota. intros Hne.
    destruct (String.eqb_spec (strip (default "" (in_message data))) "");
      [done|].
    cbn [negb]. split; [done|]. rewrite broadcast_spec. simpl.
    by rewrite broadcasts_sends.
Qed.

(** C9. An [image_upload] whose payload does not decode, or whose file
    cannot be written, does nothing at all and the loop goes on to the
    next message; one that decodes and is written is answered by one
    broadcast, of an [image_message] with the URL of the written file. *)
Theorem image_upload_swallows_failure room_id user_id username e data img_data
    inputs σ :
  in_type data = Some "image_upload" →
  in_data data = Some img_data →
  let ext := default ".png" (in_ext data) in
  let unique_name := (token_hex e ++ ext)%string in
  let url := ("/uploads/" ++ unique_name)%string in
  let r := on_message b64decode room_id user_id username e data σ in
  (b64decode (encoded_part img_data) = None ∨ write_fails e = true →
     r = Run σ [] (Ok tt)
     ∧ message_loop b64decode room_id user_id username
         ((e, Message data) :: inputs) σ
       = message_loop b64decode room_id user_id username inputs σ)
  ∧ (∀ binary_data,
       img_data ≠ "" →
       b64decode (encoded_part img_data) = Some binary_data →
       write_fails e = false →
       result r = Ok tt
       ∧ trace r = WriteFile unique_name binary_data
                     :: trace (broadcast room_id
                          (image_message user_id username url (utcnow e)) σ)
       ∧ broadcasts (trace r)
           = [(room_id, image_message user_id username url (utcnow e))]).
Proof.
  intros Ht Hd ext unique_name url r. subst r.
  assert (Hloop : ∀ σ',
    on_message b64decode room_id user_id username e data σ' = Run σ' [] (Ok tt) →
    message_loop b64decode room_id user_id username ((e, Message data) :: inputs) σ'
    = message_loop b64decode room_id user_id username inputs σ').
  { intros σ' H. simpl. unfold bind. rewrite H. simpl. apply run_eta. }
  assert (Hrun : on_message b64decode room_id user_id username e data σ =
    if negb (String.eqb img_data "")
    then image_upload b64decode room_id user_id username e img_data ext σ
    else Run σ [] (Ok tt)).
  { unfold on_message. rewrite Ht, Hd.
    change (is_type (Some "image_upload") "chat_message") with false.
    change (is_type (Some "image_upload") "image_upload") with true.
    cbv iota. fold ext. by destruct (negb (String.eqb img_data "")). }
  split.
  - intros Hfail.
    assert (H : on_message b64decode room_id user_id username e data σ
                = Run σ [] (Ok tt)); [|split; [exact H|by apply Hloop]].
    rewrite Hrun. destruct (negb (String.eqb img_data "")); [|done].
    unfold image_upload, try_except.
    destruct (b64decode (encoded_part img_data)) as [b|]; [|done].
    destruct Hfail as [|Hw]; [done|]. by rewrite Hw.
  - intros b Hne Hb Hw. rewrite Hrun.
    destruct (String.eqb_spec img_data ""); [done|]. cbn [negb].
    unfold image_upload, try_except.
    subst unique_name url.
    rewrite Hb, Hw, bind_emit, !broadcast_spec. simpl.
    by rewrite broadcasts_sends.
Qed.

End EndpointProperties.

Lemma oversized_token_is_not_closed_witness :
  authenticate decimal_int room42 (Some "9223372036854775808") None = None
  ∧ token_id decimal_int (Some "9223372036854775808") None
    = Some 9223372036854775808
  ∧ let r := websocket_endpoint decimal_int decimal_str b64_table 5%nat 42
               (Some "9223372036854775808") None [] room42 in
    rooms (final r) = rooms room42
    ∧ room_roles (final r) = room_roles room42
    ∧ room_bans (final r) = room_bans room42
    ∧ users (final r) = users room42
    ∧ (∀ a, a ∈ trace r → a = Close 5%nat 1008)
    ∧ r = Run room42 [] (Raised OverflowError).
Proof.
  assert (authenticate decimal_int room42 (Some "9223372036854775808") None
          = None) as H by (vm_compute; reflexivity).
  split; [exact H|]. split; [vm_compute; reflexivity|].
  exact (oversized_token_is_not_closed decimal_int decimal_str b64_table
           decimal_int_str 5%nat 42 (Some "9223372036854775808") None []
           room42 (or_introl H)).
Defined.

Lemma chat_message_ignored_or_broadcast_witness :
  in_type say_hi = Some "chat_message"
  ∧ let r := on_message b64_table 42 12 "C" noon say_hi room42 in
    ∃ l text t,
      default "" (in_message say_hi) = (l ++ text ++ t)%string
      ∧ all_space l = true ∧ all_space t = true
      ∧ head_is_space text = false ∧ last_is_space text = false
      ∧ text = strip (default "" (in_message say_hi))
      ∧ (text = "" → r = Run room42 [] (Ok tt))
      ∧ (text ≠ "" →
           r = broadcast 42 (chat_message 12 "C" text (utcnow noon)) room42
           ∧ result r = Ok tt
           ∧ broadcasts (trace r)
               = [(42, chat_message 12 "C" text (utcnow noon))]).
Proof.
  split; [reflexivity|].
  apply (chat_message_ignored_or_broadcast b64_table 42 12 "C" noon say_hi room42).
  reflexivity.
Defined.

Lemma image_upload_swallows_failure_witness :
  in_type upload_hi = Some "image_upload"
  ∧ in_data upload_hi = Some "data:text/plain;base64,aGk="
  ∧ let img_data := "data:text/plain;base64,aGk=" in
    let ext := default ".png" (in_ext upload_hi) in
    let unique_name := (token_hex noon ++ ext)%string in
    let url := ("/uploads/" ++ unique_name)%string in
    let r := on_message b64_table 42 12 "C" noon upload_hi room42 in
    (b64_table (encoded_part img_data) = None ∨ write_fails noon = true →
       r = Run room42 [] (Ok tt)
       ∧ message_loop b64_table 42 12 "C" ((noon, Message upload_hi) :: []) room42
         = message_loop b64_table 42 12 "C" [] room42)
    ∧ (∀ binary_data,
         img_data ≠ "" →
         b64_table (encoded_part img_data) = Some binary_data →
         write_fails noon = false →
         result r = Ok tt
         ∧ trace r = WriteFile unique_name binary_data
                       :: trace (broadcast 42
                            (image_message 12 "C" url (utcnow noon)) room42)
         ∧ broadcasts (trace r)
             = [(42, image_message 12 "C" url (utcnow noon))]).
Proof.
  split; [reflexivity|]. split; [reflexivity|].
  apply (image_upload_swallows_failure b64_table 42 12 "C" noon upload_hi
           "data:text/plain;base64,aGk=" [] room42); reflexivity.
Defined.

(** ** The samples, run *)

(** Three connections, B's transport broken: A and C receive the event
    and B is gone from the room's list and from the next snapshot. *)
Example broadcast_one_failed_among_three :
  let σ := set_closed {[2%nat]} room42 in
  let r := broadcast 42 (warn "x") σ in
  trace r = [Broadcast 42 (warn "x"); Send 1%nat (warn "x"); Send 3%nat (warn "x")]
  ∧ room_conns (final r) 42 = [conn_A; conn_C]
  ∧ get_room_users (final r) 42 = [member_of conn_A; member_of conn_C]
  ∧ result r = Ok tt.
Proof. vm_compute. split_and!; reflexivity. Qed.

(** D, who is banned from room 42, is turned away; C, coming with the
    query parameter only, joins as a plain user. *)
Example endpoint_on_room42 :
  trace (websocket_endpoint decimal_int decimal_str b64_table 9%nat 42
           (Some "13") None [] room42) = [Close 9%nat 1008]
  ∧ broadcasts (trace (websocket_endpoint decimal_int decimal_str b64_table
                         9%nat 42 None (Some "12") [] room42))
      = [(42, user_joined 12 "C" "user"
                [member_of conn_A; member_of conn_B; member_of conn_C;
                 Member 12 "C" "user"])].
Proof. vm_compute. split; reflexivity. Qed.

(** The upload of the sample is written and announced to the room. *)
Example upload_on_room42 :
  trace (on_message b64_table 42 12 "C" noon upload_hi room42)
  = let e := image_message 12 "C" "/uploads/00112233aabbccdd.txt"
               "2024-05-01T12:00:00" in
    [WriteFile "00112233aabbccdd.txt" "hi"; Broadcast 42 e;
     Send 1%nat e; Send 2%nat e; Send 3%nat e].
Proof. vm_compute. reflexivity. Qed.

(** A kick closes the target's socket and leaves its entry in place.  If
    a chat message is broadcast before the target's task tears down, the
    broadcast prunes the entry, and the teardown of C's socket then
    announces that B left. *)
Example kick_then_chat_then_teardown :
  let σ1 := final (handle_command 42 10 "kick" 12 "bye" room42) in
  let σ2 := final (on_message b64_table 42 10 "A" noon say_hi σ1) in
  let r := teardown 42 3 σ2 in
  room_conns σ1 42 = [conn_A; conn_B; conn_C]
  ∧ room_conns σ2 42 = [conn_A; conn_B]
  ∧ broadcasts (trace r)
      = [(42, user_left 11 "B" [member_of conn_A; member_of conn_B])]
  ∧ room_conns (final r) 42 = [conn_A; conn_B].
Proof. vm_compute. split_and!; reflexivity. Qed.

(** A kick closes the target's socket; the target's own teardown then
    removes it and announces that it left. *)
Example kick_on_room42 :
  let r := handle_command 42 10 "kick" 12 "bye" room42 in
  trace r = [Send 3%nat (kicked "bye"); Close 3%nat 1000]
  ∧ room_conns (final r) 42 = [conn_A; conn_B; conn_C]
  ∧ broadcasts (trace (teardown 42 3 (final r)))
      = [(42, user_left 12 "C" [member_of conn_A; member_of conn_B])]
  ∧ room_conns (final (teardown 42 3 (final r))) 42 = [conn_A; conn_B].
Proof. vm_compute. split_and!; reflexivity. Qed.

(** A chat message of three spaces is passed over. *)
Example chat_of_spaces_is_ignored :
  on_message b64_table 42 12 "C" noon
    (Inbound (Some "chat_message") (Some "   ") None None "" 0 None) room42
  = Run room42 [] (Ok tt).
Proof. vm_compute. reflexivity. Qed.

(** Integers beyond 64 bits: an unknown user id in the cookie or in the
    query parameter and a room id in the URL raise before the socket is
    accepted; an unknown user id within 64 bits is closed with 1008;
    and a promotion of such a target raises before anything is written. *)
Example oversized_integers_on_the_socket :
  websocket_endpoint decimal_int decimal_str b64_table 9%nat 42
    (Some "9223372036854775808") None [] room42
  = Run room42 [] (Raised OverflowError)
  ∧ websocket_endpoint decimal_int decimal_str b64_table 9%nat 42
      None (Some "-9223372036854775809") [] room42
    = Run room42 [] (Raised OverflowError)
  ∧ websocket_endpoint decimal_int decimal_str b64_table 9%nat
      9223372036854775808 (Some "12") None [] room42
    = Run room42 [] (Raised OverflowError)
  ∧ trace (websocket_endpoint decimal_int decimal_str b64_table 9%nat 42
             (Some "9223372036854775807") None [] room42)
    = [Close 9%nat 1008]
  ∧ handle_command 42 10 "assign_host" 9223372036854775808 "" room42
    = Run room42 [] (Raised OverflowError).
Proof. split_and!; vm_compute; reflexivity. Qed.

(** * Further properties *)

(** ** Leaving and joining *)

Lemma filter_alive_idem σ (l : list conn) :
  filter (alive σ) (filter (alive σ) l) = filter (alive σ) l.
Proof.
  induction l as [|c l IH]; [done|].
  destruct (decide (alive σ c)) as [Hc|Hc].
  - rewrite (filter_cons_True _ c l) by done.
    rewrite filter_cons_True by done. by rewrite IH.
  - by rewrite (filter_cons_False _ c l) by done.
Qed.

Lemma list_find_split (P : conn → Prop) `{∀ c, Decision (P c)} l i c :
  list_find P l = Some (i, c) →
  l = take i l ++ c :: drop (S i) l ∧ Forall (λ y, ¬ P y) (take i l) ∧ P c.
Proof.
  intros (Hi & Hc & Hbefore)%list_find_Some. split_and!; [| |done].
  - by rewrite take_drop_middle.
  - apply Forall_lookup. intros j y Hj.
    apply lookup_take_Some in Hj as [Hj Hlt]. by eapply Hbefore.
Qed.

(** X1. When the room holds an entry for the socket, [disconnect]
    returns the first such entry and deletes it, and nothing else of the
    room's list, without sending anything. *)
Theorem disconnect_removes_first_entry room_id ws σ i c :
  list_find (λ c, c_ws c = ws) (room_conns σ room_id) = Some (i, c) →
  c_ws c = ws
  ∧ disconnect room_id ws σ
    = Run (set_rooms (<[room_id := delete i (room_conns σ room_id)]> (rooms σ)) σ)
          [] (Ok c).
Proof.
  intros Hfind. destruct (list_find_split _ _ _ _ Hfind) as (Hsplit & Hpre & Hc).
  split; [done|]. rewrite delete_take_drop.
  by apply disconnect_found.
Qed.

Lemma disconnect_removes_first_entry_witness :
  list_find (λ c, c_ws c = 2%nat) (room_conns room42 42) = Some (1%nat, conn_B)
  ∧ c_ws conn_B = 2%nat
  ∧ disconnect 42 2 room42
    = Run (set_rooms (<[42 := delete 1%nat (room_conns room42 42)]> (rooms room42))
             room42)
          [] (Ok conn_B).
Proof.
  split; [reflexivity|].
  apply (disconnect_removes_first_entry 42 2 room42 1 conn_B). reflexivity.
Defined.

(** X2. When the room holds no entry for the socket, [disconnect] sends
    nothing and leaves every room's list as it was; it returns the last
    entry of the room's list, and raises on an empty one. *)
Theorem disconnect_of_unknown_socket room_id ws σ :
  list_find (λ c, c_ws c = ws) (room_conns σ room_id) = None →
  let r := disconnect room_id ws σ in
  trace r = []
  ∧ room_conns (final r) room_id = room_conns σ room_id
  ∧ (∀ k, k ≠ room_id → rooms (final r) !! k = rooms σ !! k)
  ∧ result r = match last (room_conns σ room_id) with
               | Some c => Ok c
               | None => Raised UnboundLocalError
               end.
Proof.
  intros Hfind%list_find_None r. subst r.
  rewrite disconnect_not_found by done. simpl. split_and!; try done.
  - by rewrite room_conns_set_rooms, lookup_insert_eq.
  - intros k Hk. by rewrite lookup_insert_ne.
Qed.

Lemma disconnect_of_unknown_socket_witness :
  list_find (λ c, c_ws c = 9%nat) (room_conns room42 42) = None
  ∧ let r := disconnect 42 9 room42 in
    trace r = []
    ∧ room_conns (final r) 42 = room_conns room42 42
    ∧ (∀ k, k ≠ 42 → rooms (final r) !! k = rooms room42 !! k)
    ∧ result r = match last (room_conns room42 42) with
                 | Some c => Ok c
                 | None => Raised UnboundLocalError
                 end.
Proof.
  split; [reflexivity|].
  apply (disconnect_of_unknown_socket 42 9 room42). reflexivity.
Defined.

Lemma teardown_found room_id ws σ pre c post :
  room_conns σ room_id = pre ++ c :: post →
  Forall (λ c, c_ws c ≠ ws) pre → c_ws c = ws →
  let rest := pre ++ post in
  let message := user_left (c_user_id c) (c_username c) (member_of <$> rest) in
  teardown room_id ws σ
  = Run (set_rooms (<[room_id := filter (alive σ) rest]> (rooms σ)) σ)
        (Broadcast room_id message :: sends message (filter (alive σ) rest))
        (Ok tt).
Proof.
  intros Hsplit Hpre Hc rest message.
  unfold teardown, bind at 1.
  rewrite (disconnect_found room_id ws σ _ c _ Hsplit Hpre Hc).
  cbn [result final trace]. rewrite bind_gets, broadcast_spec.
  unfold get_room_users. rewrite !room_conns_set_rooms, lookup_insert_eq.
  cbn [default]. fold rest. subst message.
  cbn [final trace result rooms set_rooms app]. by rewrite insert_insert_eq.
Qed.

(** X3. The teardown of a registered socket removes its entry and makes
    one broadcast, a [user_left] naming the user of that entry, whose
    [users] field lists the entries that remain; the broadcast then
    prunes the connections it cannot reach. *)
Theorem teardown_announces_departure room_id ws σ i c :
  list_find (λ c, c_ws c = ws) (room_conns σ room_id) = Some (i, c) →
  let rest := delete i (room_conns σ room_id) in
  let message := user_left (c_user_id c) (c_username c) (member_of <$> rest) in
  teardown room_id ws σ
  = Run (set_rooms (<[room_id := filter (alive σ) rest]> (rooms σ)) σ)
        (Broadcast room_id message :: sends message (filter (alive σ) rest))
        (Ok tt).
Proof.
  intros Hfind rest message.
  destruct (list_find_split _ _ _ _ Hfind) as (Hsplit & Hpre & Hc).
  subst rest message. rewrite delete_take_drop.
  by apply teardown_found.
Qed.

Lemma teardown_announces_departure_witness :
  list_find (λ c, c_ws c = 2%nat) (room_conns room42 42) = Some (1%nat, conn_B)
  ∧ let rest := delete 1%nat (room_conns room42 42) in
    let message := user_left 11 "B" (member_of <$> rest) in
    teardown 42 2 room42
    = Run (set_rooms (<[42 := filter (alive room42) rest]> (rooms room42)) room42)
          (Broadcast 42 message :: sends message (filter (alive room42) rest))
          (Ok tt).
Proof.
  split; [reflexivity|].
  apply (teardown_announces_departure 42 2 room42 1 conn_B). reflexivity.
Defined.

(** X4. A socket that joins a room it is not registered in, on an open
    transport, and then leaves, gives the room back its list (less the
    connections the join's broadcast found broken), and the teardown
    announces the user who had joined. *)
Theorem join_then_leave_restores_room room_id ws u σ :
  Forall (λ c, c_ws c ≠ ws) (room_conns σ room_id) →
  ws ∉ closed σ →
  let before := filter (alive σ) (room_conns σ room_id) in
  let r := teardown room_id ws (final (connect room_id ws u σ)) in
  result r = Ok tt
  ∧ room_conns (final r) room_id = before
  ∧ broadcasts (trace r)
      = [(room_id, user_left (u_id u) (u_username u) (member_of <$> before))].
Proof.
  intros Hfresh Hws before r. subst r. rewrite connect_spec. cbn [final].
  set (new := Conn ws (u_id u) _ _).
  set (σ1 := set_rooms _ σ).
  assert (room_conns σ1 room_id = before ++ new :: []) as Hconns.
  { subst σ1. rewrite room_conns_set_rooms, lookup_insert_eq. cbn [default].
    rewrite filter_app, (filter_cons_True _ new []) by done. done. }
  assert (Forall (λ c, c_ws c ≠ ws) before) as Hbefore.
  { apply Forall_forall. intros y [_ Hy]%list_elem_of_filter.
    by eapply Forall_forall in Hfresh. }
  rewrite (teardown_found room_id ws σ1 before new [] Hconns Hbefore eq_refl).
  rewrite app_nil_r. cbn [result final trace].
  rewrite room_conns_set_rooms, lookup_insert_eq. cbn [default].
  assert (filter (alive σ1) before = before) as ->
    by exact (filter_alive_idem σ _).
  split_and!; [done..|].
  change (broadcasts (?a :: ?t)) with (broadcasts [a] ++ broadcasts t).
  by rewrite broadcasts_sends.
Qed.

Lemma join_then_leave_restores_room_witness :
  Forall (λ c, c_ws c ≠ 9%nat) (room_conns room42 42)
  ∧ (9%nat ∉ closed room42)
  ∧ let before := filter (alive room42) (room_conns room42 42) in
    let r := teardown 42 9 (final (connect 42 9 (User 13 "D" "user") room42)) in
    result r = Ok tt
    ∧ room_conns (final r) 42 = before
    ∧ broadcasts (trace r) = [(42, user_left 13 "D" (member_of <$> before))].
Proof.
  assert (Forall (λ c, c_ws c ≠ 9%nat) (room_conns room42 42)) as H1.
  { apply (bool_decide_unpack _). vm_compute. reflexivity. }
  assert (9%nat ∉ closed room42) as H2.
  { apply (bool_decide_unpack _). vm_compute. reflexivity. }
  split; [exact H1|]. split; [exact H2|].
  exact (join_then_leave_restores_room 42 9 (User 13 "D" "user") room42 H1 H2).
Defined.

(** ** Moderation, branch by branch *)

(** The runs of an allowed kick and of an allowed warn. *)
Lemma kick_branch_eq room_id caller_id target_id reason σ :
  authorize (global_role σ caller_id) (caller_role σ room_id caller_id) "kick"
    = true →
  handle_command room_id caller_id "kick" target_id reason σ
  = match get_connection σ room_id target_id with
    | Some (_, c) =>
        if decide (alive σ c)
        then Run (set_closed ({[c_ws c]} ∪ closed σ) σ)
                 [Send (c_ws c) (kicked reason); Close (c_ws c) 1000] (Ok tt)
        else Run σ [] (Raised (TransportError (c_ws c)))
    | None => Run σ [] (Ok tt)
    end.
Proof.
  intros Hauth. unfold handle_command. rewrite !bind_gets.
  unfold authorize in Hauth. cbn in Hauth |- *.
  rewrite !orb_false_r in Hauth. rewrite Hauth, bind_gets.
  destruct (get_connection σ room_id target_id) as [[i c]|]; [|done].
  unfold bind, send_json, alive.
  destruct (decide (c_ws c ∈ closed σ)) as [Hc|Hc].
  - by rewrite decide_False by tauto.
  - by rewrite decide_True by done.
Qed.

Lemma warn_branch_eq room_id caller_id target_id reason σ :
  authorize (global_role σ caller_id) (caller_role σ room_id caller_id) "warn"
    = true →
  handle_command room_id caller_id "warn" target_id reason σ
  = match get_connection σ room_id target_id with
    | Some (_, c) =>
        if decide (alive σ c)
        then Run σ [Send (c_ws c) (warn reason)] (Ok tt)
        else Run σ [] (Raised (TransportError (c_ws c)))
    | None => Run σ [] (Ok tt)
    end.
Proof.
  intros Hauth. unfold handle_command. rewrite !bind_gets.
  unfold authorize in Hauth. cbn in Hauth |- *.
  rewrite !orb_false_r in Hauth. rewrite Hauth, bind_gets.
  destruct (get_connection σ room_id target_id) as [[i c]|]; [|done].
  unfold send_json, alive.
  destruct (decide (c_ws c ∈ closed σ)) as [Hc|Hc].
  - by rewrite decide_False by tauto.
  - by rewrite decide_True by done.
Qed.

(** X5. An allowed kick of a target whose first connection is open sends
    it [kicked] and closes it with code 1000, and does nothing else: the
    entry stays in the room and no table changes.  The transport is
    closed from then on, and the next broadcast in the room removes the
    entry. *)
Theorem kick_notifies_and_closes room_id caller_id target_id reason σ i c :
  authorize (global_role σ caller_id) (caller_role σ room_id caller_id) "kick"
    = true →
  get_connection σ room_id target_id = Some (i, c) →
  alive σ c →
  let r := handle_command room_id caller_id "kick" target_id reason σ in
  result r = Ok tt
  ∧ trace r = [Send (c_ws c) (kicked reason); Close (c_ws c) 1000]
  ∧ rooms (final r) = rooms σ
  ∧ room_roles (final r) = room_roles σ
  ∧ room_bans (final r) = room_bans σ
  ∧ ¬ alive (final r) c
  ∧ room_conns (final (broadcast room_id (warn reason) (final r))) room_id
    = filter (λ c', alive σ c' ∧ c_ws c' ≠ c_ws c) (room_conns σ room_id).
Proof.
  intros Hauth Hfind Halive r. subst r.
  rewrite kick_branch_eq, Hfind, decide_True by done. cbn [result trace final].
  split_and!; try done.
  - unfold alive. simpl. intros H. apply H, elem_of_union. left.
    by apply elem_of_singleton.
  - rewrite broadcast_spec. cbn [final].
    rewrite room_conns_set_rooms, lookup_insert_eq. cbn [default].
    change (room_conns (set_closed _ σ) room_id) with (room_conns σ room_id).
    apply list_filter_iff. intros c'. unfold alive. simpl.
    rewrite not_elem_of_union, not_elem_of_singleton. tauto.
Qed.

Lemma kick_notifies_and_closes_witness :
  authorize (global_role room42 10) (caller_role room42 42 10) "kick" = true
  ∧ get_connection room42 42 12 = Some (2%nat, conn_C)
  ∧ alive room42 conn_C
  ∧ let r := handle_command 42 10 "kick" 12 "bye" room42 in
    result r = Ok tt
    ∧ trace r = [Send 3%nat (kicked "bye"); Close 3%nat 1000]
    ∧ rooms (final r) = rooms room42
    ∧ room_roles (final r) = room_roles room42
    ∧ room_bans (final r) = room_bans room42
    ∧ ¬ alive (final r) conn_C
    ∧ room_conns (final (broadcast 42 (warn "bye") (final r))) 42
      = filter (λ c', alive room42 c' ∧ c_ws c' ≠ 3%nat) (room_conns room42 42).
Proof.
  assert (alive room42 conn_C) as H.
  { apply (bool_decide_unpack _). vm_compute. reflexivity. }
  split; [reflexivity|]. split; [reflexivity|]. split; [exact H|].
  exact (kick_notifies_and_closes 42 10 12 "bye" room42 2 conn_C
           eq_refl eq_refl H).
Defined.

(** X6. An allowed warn changes nothing and sends one event, [warn], to
    the first connection registered under the target's user id; when
    that transport is closed the send raises instead. *)
Theorem warn_reaches_target_only room_id caller_id target_id reason σ i c :
  authorize (global_role σ caller_id) (caller_role σ room_id caller_id) "warn"
    = true →
  get_connection σ room_id target_id = Some (i, c) →
  let r := handle_command room_id caller_id "warn" target_id reason σ in
  final r = σ
  ∧ c_user_id c = target_id
  ∧ if decide (alive σ c)
    then trace r = [Send (c_ws c) (warn reason)] ∧ result r = Ok tt
    else trace r = [] ∧ result r = Raised (TransportError (c_ws c)).
Proof.
  intros Hauth Hfind r. subst r. rewrite warn_branch_eq, Hfind by done.
  apply list_find_Some in Hfind as (_ & Hid & _).
  by destruct (decide (alive σ c)).
Qed.

Lemma warn_reaches_target_only_witness :
  authorize (global_role room42 11) (caller_role room42 42 11) "warn" = true
  ∧ get_connection room42 42 12 = Some (2%nat, conn_C)
  ∧ let r := handle_command 42 11 "warn" 12 "calm down" room42 in
    final r = room42
    ∧ c_user_id conn_C = 12
    ∧ if decide (alive room42 conn_C)
      then trace r = [Send (c_ws conn_C) (warn "calm down")] ∧ result r = Ok tt
      else trace r = [] ∧ result r = Raised (TransportError (c_ws conn_C)).
Proof.
  split; [reflexivity|]. split; [reflexivity|].
  exact (warn_reaches_target_only 42 11 12 "calm down" room42 2 conn_C
           eq_refl eq_refl).
Defined.

Lemma role_of_insert σ room_id target_id role k u t b r cl :
  role_of (World t (<[(room_id, target_id) := role]> (room_roles σ)) b r cl) k u
  = if decide ((room_id, target_id) = (k, u)) then role else role_of σ k u.
Proof.
  unfold role_of. simpl. rewrite lookup_insert. by destruct (decide _).
Qed.

(** X7. An allowed promotion whose room and target are integers of at
    most 64 bits gives the target the new role in the directory, whether
    or not the target is connected or has an account, and changes no
    other row: the role of every other user, a previous owner included,
    stays.  One [role_update] is broadcast, with the snapshot in which
    the target's first connection carries the new role.  A promotion
    whose target is an integer the driver refuses raises
    [OverflowError] before anything is written or sent. *)
Theorem promotion_writes_directory room_id caller_id command target_id reason σ :
  command = "assign_host" ∨ command = "assign_owner" →
  authorize (global_role σ caller_id) (caller_role σ room_id caller_id) command
    = true →
  let role := if String.eqb command "assign_host" then "host" else "owner" in
  let conns := promoted target_id role (room_conns σ room_id) in
  let r := handle_command room_id caller_id command target_id reason σ in
  if sqlite_int room_id && sqlite_int target_id
  then
    result r = Ok tt
    ∧ role_of (final r) room_id target_id = role
    ∧ (∀ k u, (k, u) ≠ (room_id, target_id) →
         room_roles (final r) !! (k, u) = room_roles σ !! (k, u))
    ∧ broadcasts (trace r)
        = [(room_id, role_update target_id role (member_of <$> conns))]
    ∧ room_conns (final r) room_id = filter (alive σ) conns
    ∧ users (final r) = users σ
    ∧ room_bans (final r) = room_bans σ
  else r = Run σ [] (Raised OverflowError).
Proof.
  intros Hc Hauth role conns r. subst r.
  rewrite assign_branch_eq by done. fold role.
  assert (role = "host" ∨ role = "owner") as Hrole.
  { subst role. destruct Hc as [-> | ->]; [by left|by right]. }
  assert (forallb sqlite_int [room_id; target_id]
          = sqlite_int room_id && sqlite_int target_id) as Hint.
  { cbn [forallb]. by rewrite andb_true_r. }
  destruct (sqlite_int room_id && sqlite_int target_id) eqn:Hfit;
    [|by apply assign_overflow].
  rewrite assign_spec by done. fold conns. cbn [result final trace].
  split_and!; try done.
  - rewrite role_of_insert. by rewrite decide_True.
  - intros k u Hne. cbn [room_roles]. by rewrite lookup_insert_ne.
  - change (broadcasts (?a :: ?t)) with (broadcasts [a] ++ broadcasts t).
    by rewrite broadcasts_sends.
  - unfold room_conns at 1. cbn [rooms]. by rewrite lookup_insert_eq.
Qed.

Lemma promotion_writes_directory_witness :
  ("assign_owner" = "assign_host" ∨ "assign_owner" = "assign_owner")
  ∧ authorize (global_role room42 10) (caller_role room42 42 10) "assign_owner"
    = true
  ∧ let role := if String.eqb "assign_owner" "assign_host" then "host" else "owner" in
    let conns := promoted 99 role (room_conns room42 42) in
    let r := handle_command 42 10 "assign_owner" 99 "" room42 in
    let r' := handle_command 42 10 "assign_owner" 9223372036854775808 ""
                room42 in
    (result r = Ok tt
     ∧ role_of (final r) 42 99 = role
     ∧ (∀ k u, (k, u) ≠ (42, 99) →
          room_roles (final r) !! (k, u) = room_roles room42 !! (k, u))
     ∧ broadcasts (trace r)
         = [(42, role_update 99 role (member_of <$> conns))]
     ∧ room_conns (final r) 42 = filter (alive room42) conns
     ∧ users (final r) = users room42
     ∧ room_bans (final r) = room_bans room42)
    ∧ r' = Run room42 [] (Raised OverflowError).
Proof.
  split; [by right|]. split; [reflexivity|].
  split.
  - apply (promotion_writes_directory 42 10 "assign_owner" 99 "" room42);
      [by right|reflexivity].
  - apply (promotion_writes_directory 42 10 "assign_owner"
             9223372036854775808 "" room42); [by right|reflexivity].
Defined.

(** X8. An allowed promotion of a target that holds at most one
    connection in the room keeps every cached role equal to the
    directory's. *)
Theorem promotion_keeps_cache_coherent room_id caller_id command target_id
    reason σ :
  command = "assign_host" ∨ command = "assign_owner" →
  authorize (global_role σ caller_id) (caller_role σ room_id caller_id) command
    = true →
  at_most_one target_id (room_conns σ room_id) →
  cache_coherent σ →
  cache_coherent
    (final (handle_command room_id caller_id command target_id reason σ)).
Proof.
  intros Hc Hauth Hone Hσ. rewrite assign_branch_eq by done.
  apply assign_keeps_coherence; [|done..].
  destruct Hc as [-> | ->]; [by left|by right].
Qed.

Lemma promotion_keeps_cache_coherent_witness :
  ("assign_host" = "assign_host" ∨ "assign_host" = "assign_owner")
  ∧ authorize (global_role room42 10) (caller_role room42 42 10) "assign_host"
    = true
  ∧ at_most_one 12 (room_conns room42 42)
  ∧ cache_coherent room42
  ∧ cache_coherent (final (handle_command 42 10 "assign_host" 12 "" room42)).
Proof.
  assert (at_most_one 12 (room_conns room42 42)) as H1.
  { intros [|[|[|i]]] [|[|[|j]]] c1 c2 Hi Hj; vm_compute in Hi, Hj;
      intros; simplify_eq/=; reflexivity. }
  assert (cache_coherent room42) as H2.
  { apply (bool_decide_unpack _). vm_compute. reflexivity. }
  split; [by left|]. split; [reflexivity|]. split; [exact H1|].
  split; [exact H2|].
  exact (promotion_keeps_cache_coherent 42 10 "assign_host" 12 "" room42
           (or_introl eq_refl) eq_refl H1 H2).
Defined.

Lemma authorize_cases g r command :
  authorize g r command = true →
  (command = "kick" ∨ command = "warn")
  ∨ (command = "assign_host" ∨ command = "assign_owner").
Proof.
  unfold authorize.
  destruct (String.eqb_spec command "kick"),
    (String.eqb_spec command "warn"),
    (String.eqb_spec command "assign_host"),
    (String.eqb_spec command "assign_owner"); cbn; try discriminate; tauto.
Qed.

(** X10. Whatever the command and whoever the caller, [handle_command]
    leaves the users and the bans as they are (a kick is not a ban) and
    changes the roles table at the row of the target at most; a command
    other than a promotion changes neither the roles nor the rooms. *)
Theorem handle_command_frame room_id caller_id command target_id reason σ :
  let r := handle_command room_id caller_id command target_id reason σ in
  users (final r) = users σ
  ∧ room_bans (final r) = room_bans σ
  ∧ (∀ k, k ≠ (room_id, target_id) →
       room_roles (final r) !! k = room_roles σ !! k)
  ∧ (command ≠ "assign_host" → command ≠ "assign_owner" →
       room_roles (final r) = room_roles σ ∧ rooms (final r) = rooms σ).
Proof.
  intros r. subst r.
  destruct (authorize (global_role σ caller_id)
              (caller_role σ room_id caller_id) command) eqn:Hauth.
  - pose proof Hauth as Hcmd.
    apply authorize_cases in Hcmd as [[-> | ->] | Hassign].
    + rewrite kick_branch_eq by done.
      destruct (get_connection σ room_id target_id) as [[i c]|]; [|done].
      by destruct (decide (alive σ c)).
    + rewrite warn_branch_eq by done.
      destruct (get_connection σ room_id target_id) as [[i c]|]; [|done].
      by destruct (decide (alive σ c)).
    + rewrite assign_branch_eq by done.
      assert ((if String.eqb command "assign_host" then "host" else "owner")
                = "host"
              ∨ (if String.eqb command "assign_host" then "host" else "owner")
                = "owner") as Hrole.
      { destruct Hassign as [-> | ->]; [by left|by right]. }
      destruct (forallb sqlite_int [room_id; target_id]) eqn:Hint.
      * rewrite assign_spec by done.
        cbn [final users room_bans room_roles rooms]. split_and!; try done.
        -- intros k Hk. by rewrite lookup_insert_ne.
        -- intros H1 H2. by destruct Hassign.
      * rewrite assign_overflow by done. cbn [final]. split_and!; done.
  - rewrite denied_branch_eq by done.
    destruct (get_connection σ room_id caller_id) as [[i c]|]; [|done].
    unfold send_json. by destruct (decide (c_ws c ∈ closed σ)).
Qed.


(** ** What a whole session keeps *)

Section Keeps.
Context {A B : Type} (P : world → Prop).

Lemma keeps_ret (a : A) : keeps P (ret a).
Proof. by intros σ. Qed.

Lemma keeps_raise (e : exn) : keeps P (raise (A:=A) e).
Proof. by intros σ. Qed.

Lemma keeps_gets (f : world → A) : keeps P (gets f).
Proof. by intros σ. Qed.

Lemma keeps_execute params hit (q : world → A) : keeps P (execute params hit q).
Proof. by intros σ. Qed.

Lemma keeps_emit (a : action) : keeps P (emit a).
Proof. by intros σ. Qed.

Lemma keeps_send_json w e : keeps P (send_json w e).
Proof. intros σ Hσ. unfold send_json. by destruct (decide _). Qed.

Lemma keeps_bind (m : M A) (k : A → M B) :
  keeps P m → (∀ a, keeps P (k a)) → keeps P (bind m k).
Proof.
  intros Hm Hk σ Hσ. unfold bind. specialize (Hm σ Hσ).
  destruct (result (m σ)) as [a|e]; [|done]. by apply Hk.
Qed.

Lemma keeps_try_except (m : M A) (h : exn → M A) :
  keeps P m → (∀ e, keeps P (h e)) → keeps P (try_except m h).
Proof.
  intros Hm Hh σ Hσ. unfold try_except. specialize (Hm σ Hσ).
  destruct (result (m σ)) as [a|e]; [done|]. by apply Hh.
Qed.
End Keeps.

Ltac keeps_steps :=
  repeat match goal with
  | |- ∀ _, _ => intros ?
  | |- keeps _ (if ?b then _ else _) => destruct b
  | |- keeps _ (match ?x with Some _ => _ | None => _ end) =>
      destruct x as [[? ?]|]
  | |- keeps _ (bind _ _) => apply keeps_bind
  | |- keeps _ (try_except _ _) => apply keeps_try_except
  | |- keeps _ (gets _) => apply keeps_gets
  | |- keeps _ (ret _) => apply keeps_ret
  | |- keeps _ (raise _) => apply keeps_raise
  | |- keeps _ (emit _) => apply keeps_emit
  | |- keeps _ (send_json _ _) => apply keeps_send_json
  end.

(** Properties kept by the primitive steps are kept by the handlers. *)
Section Handlers.
Variable P : world → Prop.
Hypothesis P_close : ∀ w code, keeps P (ws_close w code).
Hypothesis P_broadcast : ∀ room_id message, keeps P (broadcast room_id message).
Hypothesis P_assign : ∀ room_id target_id role, keeps P (assign room_id target_id role).
Hypothesis P_disconnect : ∀ room_id ws, keeps P (disconnect room_id ws).
Hypothesis P_connect : ∀ room_id ws u, keeps P (connect room_id ws u).

Variable py_int : string → option Z.
Variable py_str : Z → string.
Variable b64decode : string → option string.

Lemma keeps_handle_command room_id caller_id command target_id reason :
  keeps P (handle_command room_id caller_id command target_id reason).
Proof. unfold handle_command. keeps_steps; auto. Qed.

Lemma keeps_teardown room_id ws : keeps P (teardown room_id ws).
Proof. unfold teardown. keeps_steps; auto. Qed.

Lemma keeps_on_message room_id user_id username e data :
  keeps P (on_message b64decode room_id user_id username e data).
Proof.
  unfold on_message, image_upload.
  destruct (in_data data); keeps_steps; auto using keeps_handle_command.
  all: destruct (b64decode _); keeps_steps; auto.
Qed.

Lemma keeps_message_loop room_id user_id username inputs :
  keeps P (message_loop b64decode room_id user_id username inputs).
Proof.
  induction inputs as [|[e [data|x]] inputs IH]; simpl.
  - apply keeps_ret.
  - apply keeps_bind; [apply keeps_on_message|]. intros _. apply IH.
  - apply keeps_raise.
Qed.

Lemma keeps_serve room_id user_id username ws inputs :
  keeps P (serve b64decode room_id user_id username ws inputs).
Proof.
  intros σ Hσ. unfold serve.
  pose proof (keeps_message_loop room_id user_id username inputs σ Hσ) as H.
  destruct (result (message_loop _ _ _ _ _ σ)); [done|].
  cbn [final]. by apply keeps_teardown.
Qed.

Lemma keeps_websocket_endpoint websocket room_id cookies query_params inputs :
  keeps P (websocket_endpoint py_int py_str b64decode websocket room_id
             cookies query_params inputs).
Proof.
  unfold websocket_endpoint.
  destruct (match cookies with Some _ => _ | None => _ end) as [t|]; [|done].
  destruct (py_int t) as [n|]; [|done].
  apply keeps_bind; [apply keeps_execute|]. intros [u|]; [|done].
  apply keeps_bind; [apply keeps_execute|]. intros [|]; [done|].
  apply keeps_bind; [done|]. intros _. apply keeps_serve.
Qed.
End Handlers.

Lemma keeps_modify (P : world → Prop) (f : world → world) :
  (∀ σ, P σ → P (f σ)) → keeps P (modify f).
Proof. intros Hf σ Hσ. by apply Hf. Qed.

(** A property of the rooms' lists that survives dropping entries and
    changing roles is kept by every step but [connect]. *)
Section RoomsOnly.
Variable Q : Z → list conn → Prop.
Hypothesis Q_nil : ∀ k, Q k [].
Hypothesis Q_filter : ∀ k l (f : conn → Prop) `{∀ c, Decision (f c)},
  Q k l → Q k (filter f l).
Hypothesis Q_delete : ∀ k l i, Q k l → Q k (delete i l).
Hypothesis Q_role : ∀ k l i role, Q k l → Q k (alter (with_role role) i l).

Lemma rooms_all_insert σ room_id l :
  rooms_all Q σ → Q room_id l →
  rooms_all Q (set_rooms (<[room_id := l]> (rooms σ)) σ).
Proof.
  intros Hσ Hl k. rewrite room_conns_set_rooms, lookup_insert.
  destruct (decide (room_id = k)) as [<-|]; [done|]. apply Hσ.
Qed.

Lemma rooms_all_close w code : keeps (rooms_all Q) (ws_close w code).
Proof. intros σ Hσ. exact Hσ. Qed.

Lemma rooms_all_broadcast room_id message :
  keeps (rooms_all Q) (broadcast room_id message).
Proof.
  intros σ Hσ. rewrite broadcast_spec. cbn [final].
  apply rooms_all_insert; [done|]. apply Q_filter, Hσ.
Qed.

Lemma rooms_all_disconnect room_id ws : keeps (rooms_all Q) (disconnect room_id ws).
Proof.
  intros σ Hσ.
  destruct (list_find (λ c, c_ws c = ws) (room_conns σ room_id))
    as [[i c]|] eqn:Hfind.
  - apply list_find_Some in Hfind as (Hi & Hc & Hbefore).
    rewrite (disconnect_found room_id ws σ (take i (room_conns σ room_id)) c
               (drop (S i) (room_conns σ room_id))); [|by rewrite take_drop_middle| |done].
    + cbn [final]. apply rooms_all_insert; [done|].
      rewrite <-delete_take_drop. apply Q_delete, Hσ.
    + apply Forall_lookup. intros j y Hj.
      apply lookup_take_Some in Hj as [Hj Hlt]. by eapply Hbefore.
  - apply list_find_None in Hfind. rewrite disconnect_not_found by done.
    cbn [final]. apply rooms_all_insert; [done|]. apply Hσ.
Qed.

Lemma rooms_all_assign room_id target_id role :
  keeps (rooms_all Q) (assign room_id target_id role).
Proof.
  unfold assign, assign_room_role, set_conn_role.
  keeps_steps; try apply rooms_all_broadcast.
  - apply keeps_modify. intros σ Hσ. exact Hσ.
  - apply keeps_modify. intros σ Hσ k. rewrite room_conns_set_rooms.
    rewrite lookup_alter.
    destruct (decide (room_id = k)) as [<-|]; [|apply Hσ].
    specialize (Hσ room_id). unfold room_conns in Hσ.
    destruct (rooms σ !! room_id); [|done]. by apply Q_role.
Qed.

End RoomsOnly.

Lemma same_up_to_role_alter S k l i role :
  same_up_to_role S k l → same_up_to_role S k (alter (with_role role) i l).
Proof.
  intros Hl c Hc. apply list_elem_of_lookup in Hc as [j Hj].
  rewrite list_lookup_alter in Hj. destruct (decide (i = j)) as [->|].
  - destruct (l !! j) as [c0|] eqn:H0; [|done]. simplify_eq/=.
    apply (Hl c0). by eapply list_elem_of_lookup_2.
  - apply Hl. by eapply list_elem_of_lookup_2.
Qed.

Lemma distinct_sockets_alter k l i role :
  distinct_sockets k l → distinct_sockets k (alter (with_role role) i l).
Proof.
  unfold distinct_sockets. intros Hl.
  assert (c_ws <$> alter (with_role role) i l = c_ws <$> l) as ->; [|done].
  transitivity (alter (λ w : nat, w) i (c_ws <$> l)).
  - apply list_fmap_alter. by apply Forall_true.
  - by apply list_alter_id.
Qed.

Lemma keeps_ws_close (P : world → Prop) w code :
  (∀ σ s, P σ → P (set_closed s σ)) → keeps P (ws_close w code).
Proof. intros HP σ Hσ. by apply HP. Qed.

Lemma cache_coherent_set_closed σ s :
  cache_coherent σ → cache_coherent (set_closed s σ).
Proof. intros H. exact H. Qed.

Lemma keeps_coherent_broadcast room_id message :
  keeps cache_coherent (broadcast room_id message).
Proof. intros σ. apply broadcast_keeps_coherence. Qed.

Lemma keeps_coherent_teardown room_id ws :
  keeps cache_coherent (teardown room_id ws).
Proof.
  apply keeps_bind.
  - intros σ. apply disconnect_keeps_coherence.
  - intros c. apply keeps_bind; [apply keeps_gets|].
    intros users. apply keeps_coherent_broadcast.
Qed.

Lemma keeps_coherent_command room_id caller_id command target_id reason :
  command ≠ "assign_host" → command ≠ "assign_owner" →
  keeps cache_coherent (handle_command room_id caller_id command target_id reason).
Proof.
  intros H1%String.eqb_neq H2%String.eqb_neq. unfold handle_command.
  apply keeps_bind; [apply keeps_gets|]. intros r.
  apply keeps_bind; [apply keeps_gets|]. intros g.
  rewrite H1, H2. cbn [andb].
  repeat match goal with
  | |- keeps _ (if ?b then _ else _) => destruct b
  | |- keeps _ (bind _ _) => apply keeps_bind
  | |- ∀ _, _ => intros ?
  | |- keeps _ (gets _) => apply keeps_gets
  | |- keeps _ (ret _) => apply keeps_ret
  | |- keeps _ (send_json _ _) => apply keeps_send_json
  | |- keeps _ (ws_close _ _) => apply keeps_ws_close, cache_coherent_set_closed
  | |- keeps _ (match ?x with Some _ => _ | None => _ end) => destruct x as [[? ?]|]
  end.
Qed.

Lemma tables_close u b w code : keeps (tables_are u b) (ws_close w code).
Proof. by intros σ. Qed.

Lemma tables_broadcast u b room_id message :
  keeps (tables_are u b) (broadcast room_id message).
Proof. intros σ Hσ. by rewrite broadcast_spec. Qed.

Lemma tables_connect u b room_id ws usr :
  keeps (tables_are u b) (connect room_id ws usr).
Proof. intros σ Hσ. by rewrite connect_spec. Qed.

Lemma tables_disconnect u b room_id ws :
  keeps (tables_are u b) (disconnect room_id ws).
Proof.
  unfold disconnect. apply keeps_bind; [apply keeps_gets|]. intros l.
  destruct (disconnect_loop l ws l None) as [[l' [c|]]|e]; keeps_steps;
    by apply keeps_modify.
Qed.

Lemma tables_assign u b room_id target_id role :
  keeps (tables_are u b) (assign room_id target_id role).
Proof.
  unfold assign, assign_room_role, set_conn_role.
  keeps_steps; try apply tables_broadcast; by apply keeps_modify.
Qed.

Section SessionInvariants.

Variable py_int : string → option Z.
Variable py_str : Z → string.
Variable b64decode : string → option string.

Lemma keeps_coherent_on_message room_id user_id username e data :
  no_promotion (e, Message data) →
  keeps cache_coherent (on_message b64decode room_id user_id username e data).
Proof.
  intros Hno. unfold on_message.
  destruct (is_type (in_type data) "chat_message").
  { destruct (negb _); [apply keeps_coherent_broadcast|apply keeps_ret]. }
  destruct (is_type (in_type data) "image_upload").
  { destruct (in_data data) as [img|]; [|apply keeps_ret].
    destruct (negb _); [|apply keeps_ret].
    unfold image_upload. apply keeps_try_except; [|intros; apply keeps_ret].
    destruct (b64decode _); [|apply keeps_raise].
    apply keeps_bind; [|intros; apply keeps_coherent_broadcast].
    destruct (write_fails e); [apply keeps_raise|apply keeps_emit]. }
  destruct (is_type (in_type data) "command") eqn:Hcmd; [|apply keeps_ret].
  destruct (Hno Hcmd). by apply keeps_coherent_command.
Qed.

Lemma keeps_coherent_message_loop room_id user_id username inputs :
  Forall no_promotion inputs →
  keeps cache_coherent (message_loop b64decode room_id user_id username inputs).
Proof.
  induction 1 as [|[e [data|x]] inputs Hno _ IH]; simpl.
  - apply keeps_ret.
  - apply keeps_bind; [by apply keeps_coherent_on_message|]. intros _. apply IH.
  - apply keeps_raise.
Qed.

Lemma keeps_coherent_serve room_id user_id username ws inputs :
  Forall no_promotion inputs →
  keeps cache_coherent (serve b64decode room_id user_id username ws inputs).
Proof.
  intros Hno σ Hσ. unfold serve.
  pose proof (keeps_coherent_message_loop room_id user_id username inputs Hno σ Hσ) as H.
  destruct (result (message_loop _ _ _ _ _ σ)); [done|].
  cbn [final]. by apply keeps_coherent_teardown.
Qed.

(** X9. A session that receives no promotion command keeps every cached
    role equal to the directory's, from the handshake to the teardown and
    whether it is turned away, ends normally or raises. *)
Theorem endpoint_keeps_cache_coherent websocket room_id cookies query_params
    inputs σ :
  Forall no_promotion inputs →
  cache_coherent σ →
  cache_coherent
    (final (websocket_endpoint py_int py_str b64decode websocket room_id
              cookies query_params inputs σ)).
Proof.
  intros Hno. revert σ. change (keeps cache_coherent
    (websocket_endpoint py_int py_str b64decode websocket room_id
              cookies query_params inputs)).
  unfold websocket_endpoint.
  assert (keeps cache_coherent (ws_close websocket WS_1008_POLICY_VIOLATION))
    as Hreject by apply keeps_ws_close, cache_coherent_set_closed.
  destruct (match cookies with Some _ => _ | None => _ end) as [t|]; [|done].
  destruct (py_int t) as [n|]; [|done].
  apply keeps_bind; [apply keeps_execute|]. intros [u|]; [|done].
  apply keeps_bind; [apply keeps_execute|]. intros [|]; [done|].
  apply keeps_bind; [intros σ; apply connect_keeps_coherence|].
  intros _. by apply keeps_coherent_serve.
Qed.
(** X11. Handling messages registers nobody: whatever arrives on a
    session, up to and including its teardown, every connection then in
    a room was in that room before, with the same socket, user id and
    user name; only its role may differ. *)
Theorem messages_register_nobody room_id user_id username ws inputs σ k c :
  c ∈ room_conns (final (serve b64decode room_id user_id username ws inputs σ)) k →
  ∃ c0, c0 ∈ room_conns σ k ∧ ident c0 = ident c.
Proof.
  set (S := λ k x, ∃ c0, c0 ∈ room_conns σ k ∧ ident c0 = x).
  intros Hc.
  assert (rooms_all (same_up_to_role S) σ) as Hσ.
  { intros k' c' Hc'. by exists c'. }
  eapply (keeps_serve (rooms_all (same_up_to_role S))) in Hσ; [by apply Hσ| | | |].
  - apply rooms_all_close.
  - apply rooms_all_broadcast.
    intros k' l f ? Hl c' [_ Hc']%list_elem_of_filter. by apply Hl.
  - apply rooms_all_assign.
    + intros k' l f ? Hl c' [_ Hc']%list_elem_of_filter. by apply Hl.
    + intros. by apply same_up_to_role_alter.
  - apply rooms_all_disconnect.
    intros k' l i Hl c' Hc'. apply Hl.
    eapply elem_of_sublist; [exact Hc'|apply sublist_delete].
Qed.

Lemma distinct_sockets_connect room_id ws u σ :
  rooms_all distinct_sockets σ →
  Forall (λ c, c_ws c ≠ ws) (room_conns σ room_id) →
  rooms_all distinct_sockets (final (connect room_id ws u σ)).
Proof.
  intros Hσ Hfresh. rewrite connect_spec. cbn [final].
  apply rooms_all_insert; [done|]. unfold distinct_sockets.
  eapply sublist_NoDup; [|apply fmap_sublist, sublist_filter].
  rewrite fmap_app. apply NoDup_app. split_and!.
  - apply Hσ.
  - intros w Hw ->%list_elem_of_singleton.
    apply list_elem_of_fmap in Hw as (c & Hw & Hc).
    by eapply Forall_forall in Hfresh.
  - apply NoDup_singleton.
Qed.

(** X12. If no room registers a socket twice and the socket of a new
    session is not registered in its room, then after the session,
    however it went, no room registers a socket twice. *)
Theorem sockets_stay_distinct websocket room_id cookies query_params inputs σ :
  rooms_all distinct_sockets σ →
  Forall (λ c, c_ws c ≠ websocket) (room_conns σ room_id) →
  rooms_all distinct_sockets
    (final (websocket_endpoint py_int py_str b64decode websocket room_id
              cookies query_params inputs σ)).
Proof.
  intros Hσ Hfresh. unfold websocket_endpoint.
  destruct (match cookies with Some _ => _ | None => _ end) as [t|]; [|done].
  destruct (py_int t) as [n|]; [|done].
  rewrite bind_execute.
  destruct (found (get_user_by_id σ n) || forallb sqlite_int [n]); [|done].
  destruct (get_user_by_id σ n) as [u|]; [|done].
  rewrite bind_execute.
  destruct (id (is_banned σ room_id n) || forallb sqlite_int [room_id; n]);
    [|done].
  destruct (is_banned σ room_id n); [done|].
  unfold bind at 1.
  pose proof (distinct_sockets_connect room_id websocket u σ Hσ Hfresh) as H1.
  destruct (result (connect room_id websocket u σ)); [|done]. cbn [final].
  eapply (keeps_serve (rooms_all distinct_sockets)) in H1; [exact H1| | | |].
  - apply rooms_all_close.
  - apply rooms_all_broadcast. intros k l f ? Hl.
    eapply sublist_NoDup; [exact Hl|apply fmap_sublist, sublist_filter].
  - apply rooms_all_assign.
    + intros k l f ? Hl.
      eapply sublist_NoDup; [exact Hl|apply fmap_sublist, sublist_filter].
    + intros. by apply distinct_sockets_alter.
  - apply rooms_all_disconnect. intros k l i Hl.
    eapply sublist_NoDup; [exact Hl|apply fmap_sublist, sublist_delete].
Qed.
(** X23. A session never writes the users or the bans: after the
    endpoint has run, on any inputs, both tables are what they were. *)
Theorem session_never_writes_users_or_bans websocket room_id cookies
    query_params inputs σ :
  let r := websocket_endpoint py_int py_str b64decode websocket room_id
             cookies query_params inputs σ in
  users (final r) = users σ ∧ room_bans (final r) = room_bans σ.
Proof.
  apply (keeps_websocket_endpoint (tables_are (users σ) (room_bans σ))).
  - apply tables_close.
  - apply tables_broadcast.
  - apply tables_assign.
  - apply tables_disconnect.
  - apply tables_connect.
  - done.
Qed.

End SessionInvariants.

(** ** Trimming and splitting *)

Lemma encoded_part_prefix header payload :
  has_comma header = false →
  encoded_part (header ++ String "," payload) = payload.
Proof.
  unfold encoded_part. intros H.
  assert (split_comma (header ++ String "," payload) = Some (header, payload)) as ->; [|done].
  induction header as [|c h IH]; [done|]. simpl in *.
  apply orb_false_elim in H as [Hc Hh]. by rewrite Hc, IH.
Qed.

Lemma encoded_part_plain img_data :
  has_comma img_data = false → encoded_part img_data = img_data.
Proof.
  unfold encoded_part. intros H.
  assert (split_comma img_data = None) as ->; [|done].
  induction img_data as [|c h IH]; [done|]. simpl in *.
  apply orb_false_elim in H as [Hc Hh]. by rewrite Hc, IH.
Qed.


Lemma endpoint_keeps_cache_coherent_witness :
  Forall no_promotion
    [(noon, Message say_hi); (noon, Message warn_C);
     (noon, Raises WebSocketDisconnect)]
  ∧ cache_coherent room42
  ∧ cache_coherent
      (final (websocket_endpoint decimal_int decimal_str b64_table 9%nat 42
                (Some "11") None
                [(noon, Message say_hi); (noon, Message warn_C);
                 (noon, Raises WebSocketDisconnect)] room42)).
Proof.
  assert (Forall no_promotion
    [(noon, Message say_hi); (noon, Message warn_C);
     (noon, Raises WebSocketDisconnect)]) as H1.
  { repeat constructor; unfold no_promotion; simpl; intros; done. }
  assert (cache_coherent room42) as H2.
  { apply (bool_decide_unpack _). vm_compute. reflexivity. }
  split; [exact H1|]. split; [exact H2|].
  exact (endpoint_keeps_cache_coherent decimal_int decimal_str b64_table
           9%nat 42 (Some "11") None _ room42 H1 H2).
Defined.

Lemma messages_register_nobody_witness :
  conn_A ∈ room_conns
             (final (serve b64_table 42 12 "C" 3 [(noon, Message say_hi)] room42))
             42
  ∧ ∃ c0, c0 ∈ room_conns room42 42 ∧ ident c0 = ident conn_A.
Proof.
  assert (conn_A ∈ room_conns
             (final (serve b64_table 42 12 "C" 3 [(noon, Message say_hi)] room42))
             42) as H.
  { apply (bool_decide_unpack _). vm_compute. reflexivity. }
  split; [exact H|].
  exact (messages_register_nobody b64_table 42 12 "C" 3
           [(noon, Message say_hi)] room42 42 conn_A H).
Defined.

Lemma sockets_stay_distinct_witness :
  rooms_all distinct_sockets room42
  ∧ Forall (λ c, c_ws c ≠ 9%nat) (room_conns room42 42)
  ∧ rooms_all distinct_sockets
      (final (websocket_endpoint decimal_int decimal_str b64_table 9%nat 42
                (Some "11") None [(noon, Raises WebSocketDisconnect)] room42)).
Proof.
  assert (rooms_all distinct_sockets room42) as H1.
  { intros k. unfold distinct_sockets, room_conns, room42. cbn [rooms].
    destruct (decide (k = 42)) as [->|Hk].
    - rewrite lookup_singleton_eq. apply (bool_decide_unpack _).
      vm_compute. reflexivity.
    - rewrite lookup_singleton_ne by done. apply NoDup_nil_2. }
  assert (Forall (λ c, c_ws c ≠ 9%nat) (room_conns room42 42)) as H2.
  { apply (bool_decide_unpack _). vm_compute. reflexivity. }
  split; [exact H1|]. split; [exact H2|].
  exact (sockets_stay_distinct decimal_int decimal_str b64_table 9%nat 42
           (Some "11") None _ room42 H1 H2).
Defined.

(** ** Messages the loop passes over, and a send that fails *)

Section LoopProperties.

Variable b64decode : string → option string.

(** X13. Chats with a blank text, uploads without data and messages of an
    unknown type have no effect at all: the loop behaves on any inputs
    as on the inputs without them. *)
Theorem ignored_messages_leave_no_trace room_id user_id username inputs σ :
  message_loop b64decode room_id user_id username inputs σ
  = message_loop b64decode room_id user_id username (filter heard inputs) σ.
Proof.
  revert σ. induction inputs as [|[e [data|x]] inputs IH]; intros σ; [done| |done].
  destruct (ignored data) eqn:Hig.
  - rewrite filter_cons_False by (unfold heard; simpl; congruence).
    rewrite <-IH. simpl.
    assert (on_message b64decode room_id user_id username e data σ
            = Run σ [] (Ok tt)) as Hrun.
    { unfold ignored in Hig. unfold on_message.
      destruct (is_type (in_type data) "chat_message").
      { by rewrite Hig. }
      destruct (is_type (in_type data) "image_upload").
      { destruct (in_data data); [by rewrite Hig|done]. }
      by destruct (is_type (in_type data) "command"). }
    unfold bind. rewrite Hrun. simpl. apply run_eta.
  - rewrite filter_cons_True by done. simpl. unfold bind.
    destruct (result (on_message _ _ _ _ _ _ σ)); [|done]. by rewrite IH.
Qed.
(** X14. A kick or a warn whose target is registered on a closed
    transport raises in the moderator's own loop: the moderator's
    session ends with that exception, the moderator's entry is removed
    and the room is told that the moderator left. *)
Theorem broken_target_drops_moderator room_id user_id username ws e data
    inputs σ i c j cw :
  in_type data = Some "command" →
  in_command data = "kick" ∨ in_command data = "warn" →
  authorize (global_role σ user_id) (caller_role σ room_id user_id)
    (in_command data) = true →
  get_connection σ room_id (in_target_id data) = Some (i, c) →
  ¬ alive σ c →
  list_find (λ c, c_ws c = ws) (room_conns σ room_id) = Some (j, cw) →
  let rest := delete j (room_conns σ room_id) in
  let r := serve b64decode room_id user_id username ws
             ((e, Message data) :: inputs) σ in
  result r = Raised (TransportError (c_ws c))
  ∧ broadcasts (trace r)
      = [(room_id, user_left (c_user_id cw) (c_username cw) (member_of <$> rest))]
  ∧ room_conns (final r) room_id = filter (alive σ) rest.
Proof.
  intros Ht Hcmd Hauth Htarget Hdead Hfind rest r. subst r.
  assert (on_message b64decode room_id user_id username e data σ
          = Run σ [] (Raised (TransportError (c_ws c)))) as Hrun.
  { unfold on_message. rewrite Ht.
    change (is_type (Some "command") "chat_message") with false.
    change (is_type (Some "command") "image_upload") with false.
    change (is_type (Some "command") "command") with true. cbv iota.
    destruct Hcmd as [Hc|Hc]; rewrite Hc in Hauth |- *.
    - by rewrite kick_branch_eq, Htarget, decide_False.
    - by rewrite warn_branch_eq, Htarget, decide_False. }
  destruct (list_find_split _ _ _ _ Hfind) as (Hsplit & Hpre & Hws).
  assert (message_loop b64decode room_id user_id username
            ((e, Message data) :: inputs) σ
          = Run σ [] (Raised (TransportError (c_ws c)))) as Hloop.
  { simpl. unfold bind. by rewrite Hrun. }
  unfold serve. cbv zeta. rewrite !Hloop. cbn [result final trace app].
  rewrite (teardown_found room_id ws σ _ cw _ Hsplit Hpre Hws).
  rewrite <-delete_take_drop. fold rest. cbn [result final trace].
  split_and!; [done| |].
  - change (broadcasts (?a :: ?t)) with (broadcasts [a] ++ broadcasts t).
    by rewrite broadcasts_sends.
  - by rewrite room_conns_set_rooms, lookup_insert_eq.
Qed.

(** X16. Every chat event the loop broadcasts carries a text that is not
    empty, neither begins nor ends with whitespace, and is the inbound
    message with whitespace taken off both ends. *)
Theorem chat_text_is_trimmed room_id user_id username e data σ room ev :
  in_type data = Some "chat_message" →
  (room, ev) ∈ broadcasts
     (trace (on_message b64decode room_id user_id username e data σ)) →
  ∃ text l r,
    room = room_id
    ∧ ev = chat_message user_id username text (utcnow e)
    ∧ default "" (in_message data) = (l ++ text ++ r)%string
    ∧ all_space l = true ∧ all_space r = true
    ∧ text ≠ ""
    ∧ head_is_space text = false ∧ last_is_space text = false.
Proof.
  intros Ht. unfold on_message. rewrite Ht.
  change (is_type (Some "chat_message") "chat_message") with true. cbv iota.
  destruct (strip_split (default "" (in_message data)))
    as (l & r & Hs & Hl & Hr & Hh & Hla).
  destruct (String.eqb_spec (strip (default "" (in_message data))) "") as [He|Hne].
  - cbn [negb]. intros []%elem_of_nil.
  - cbn [negb]. rewrite broadcast_spec. cbn [trace].
    change (broadcasts (?a :: ?t)) with (broadcasts [a] ++ broadcasts t).
    rewrite broadcasts_sends, app_nil_r.
    intros [= -> ->]%list_elem_of_singleton.
    by exists (strip (default "" (in_message data))), l, r.
Qed.

(** X17. Of an upload with a prefix before a comma, what is decoded and
    written is the part after the first comma, under the name made of the
    random token and the extension, [.png] when none is given. *)
Theorem upload_stores_what_follows_the_comma room_id user_id username e data
    header payload binary_data σ :
  in_type data = Some "image_upload" →
  in_data data = Some (header ++ String "," payload)%string →
  has_comma header = false →
  b64decode payload = Some binary_data →
  write_fails e = false →
  let unique_name := (token_hex e ++ default ".png" (in_ext data))%string in
  head (trace (on_message b64decode room_id user_id username e data σ))
  = Some (WriteFile unique_name binary_data).
Proof.
  intros Ht Hd Hh Hb Hw unique_name. unfold on_message. rewrite Ht, Hd.
  change (is_type (Some "image_upload") "chat_message") with false.
  change (is_type (Some "image_upload") "image_upload") with true.
  cbv iota.
  assert (negb (String.eqb (header ++ String "," payload) "") = true) as ->.
  { by destruct header. }
  unfold image_upload, try_except.
  rewrite encoded_part_prefix by done. rewrite Hb, Hw, bind_emit.
  rewrite broadcast_spec. done.
Qed.

End LoopProperties.

Lemma broken_target_drops_moderator_witness :
  let σ := set_closed {[3%nat]} room42 in
  in_type warn_C = Some "command"
  ∧ (in_command warn_C = "kick" ∨ in_command warn_C = "warn")
  ∧ authorize (global_role σ 11) (caller_role σ 42 11) (in_command warn_C) = true
  ∧ get_connection σ 42 (in_target_id warn_C) = Some (2%nat, conn_C)
  ∧ ¬ alive σ conn_C
  ∧ list_find (λ c, c_ws c = 2%nat) (room_conns σ 42) = Some (1%nat, conn_B)
  ∧ let rest := delete 1%nat (room_conns σ 42) in
    let r := serve b64_table 42 11 "B" 2 ((noon, Message warn_C) :: []) σ in
    result r = Raised (TransportError (c_ws conn_C))
    ∧ broadcasts (trace r)
        = [(42, user_left (c_user_id conn_B) (c_username conn_B)
                  (member_of <$> rest))]
    ∧ room_conns (final r) 42 = filter (alive σ) rest.
Proof.
  intros σ.
  assert (¬ alive σ conn_C) as H.
  { apply (bool_decide_unpack _). vm_compute. reflexivity. }
  split; [reflexivity|]. split; [by right|]. split; [reflexivity|].
  split; [reflexivity|]. split; [exact H|]. split; [reflexivity|].
  exact (broken_target_drops_moderator b64_table 42 11 "B" 2 noon warn_C []
           σ 2 conn_C 1 conn_B eq_refl (or_intror eq_refl) eq_refl eq_refl H
           eq_refl).
Defined.

Lemma chat_text_is_trimmed_witness :
  in_type say_hi = Some "chat_message"
  ∧ (42, chat_message 12 "C" "hi" (utcnow noon))
      ∈ broadcasts (trace (on_message b64_table 42 12 "C" noon say_hi room42))
  ∧ ∃ text l r,
      42 = 42
      ∧ chat_message 12 "C" "hi" (utcnow noon)
        = chat_message 12 "C" text (utcnow noon)
      ∧ default "" (in_message say_hi) = (l ++ text ++ r)%string
      ∧ all_space l = true ∧ all_space r = true
      ∧ text ≠ ""
      ∧ head_is_space text = false ∧ last_is_space text = false.
Proof.
  assert ((42, chat_message 12 "C" "hi" (utcnow noon))
      ∈ broadcasts (trace (on_message b64_table 42 12 "C" noon say_hi room42)))
    as H.
  { apply (bool_decide_unpack _). vm_compute. reflexivity. }
  split; [reflexivity|]. split; [exact H|].
  exact (chat_text_is_trimmed b64_table 42 12 "C" noon say_hi room42 42 _
           eq_refl H).
Defined.

Lemma upload_stores_what_follows_the_comma_witness :
  in_type upload_hi = Some "image_upload"
  ∧ in_data upload_hi = Some ("data:text/plain;base64" ++ String "," "aGk=")%string
  ∧ has_comma "data:text/plain;base64" = false
  ∧ b64_table "aGk=" = Some "hi"
  ∧ write_fails noon = false
  ∧ let unique_name := (token_hex noon ++ default ".png" (in_ext upload_hi))%string in
    head (trace (on_message b64_table 42 12 "C" noon upload_hi room42))
    = Some (WriteFile unique_name "hi").
Proof.
  split; [reflexivity|]. split; [reflexivity|]. split; [reflexivity|].
  split; [reflexivity|]. split; [reflexivity|].
  exact (upload_stores_what_follows_the_comma b64_table 42 12 "C" noon
           upload_hi "data:text/plain;base64" "aGk=" "hi" room42
           eq_refl eq_refl eq_refl eq_refl eq_refl).
Defined.

(** ** Roles *)

(** X15. The privileges are ordered: what a host may do an owner may
    do, and a sysop may do whatever anyone may; a caller who is neither
    sysop, owner nor host may do nothing; and a host who is not a sysop
    may not promote. *)
Theorem privileges_are_ordered (global_role caller_role action : string) :
  (has_privilege global_role "host" action = true →
   has_privilege global_role "owner" action = true)
  ∧ (has_privilege global_role caller_role action = true →
     has_privilege "sysop" caller_role action = true)
  ∧ (global_role ≠ "sysop" → caller_role ≠ "owner" → caller_role ≠ "host" →
     has_privilege global_role caller_role action = false)
  ∧ (global_role ≠ "sysop" → caller_role = "host" →
     has_privilege global_role caller_role "assign_host" = false
     ∧ has_privilege global_role caller_role "assign_owner" = false).
Proof.
  unfold has_privilege.
  destruct (String.eqb_spec global_role "sysop"),
    (String.eqb_spec caller_role "owner"),
    (String.eqb_spec caller_role "host"),
    (String.eqb_spec action "kick"),
    (String.eqb_spec action "warn"),
    (String.eqb_spec action "assign_host"),
    (String.eqb_spec action "assign_owner");
    subst; cbn; try discriminate; intuition congruence.
Qed.

(** X21. Removing the room role of a user who is not a sysop leaves that
    user with the role ["user"] and with no command allowed in the room,
    and touches the role of nobody else. *)
Theorem removed_role_loses_moderation room_id user_id command σ :
  global_role σ user_id ≠ "sysop" →
  let σ' := final (remove_room_role room_id user_id σ) in
  role_of σ' room_id user_id = "user"
  ∧ authorize (global_role σ' user_id) (caller_role σ' room_id user_id) command
    = false
  ∧ (∀ k u, (k, u) ≠ (room_id, user_id) → role_of σ' k u = role_of σ k u).
Proof.
  intros Hg σ'. subst σ'.
  cbn [final remove_room_role modify].
  assert (role_of (set_room_roles (delete (room_id, user_id) (room_roles σ)) σ)
            room_id user_id = "user") as Hrole.
  { unfold role_of. simpl. by rewrite lookup_delete_eq. }
  split_and!; [done| |].
  - rewrite caller_role_role_of, Hrole.
    change (global_role (set_room_roles _ σ) user_id) with (global_role σ user_id).
    apply String.eqb_neq in Hg. unfold authorize, has_privilege. rewrite Hg.
    cbn. by rewrite !andb_false_r.
  - intros k u Hne. unfold role_of. simpl. by rewrite lookup_delete_ne.
Qed.

Lemma removed_role_loses_moderation_witness :
  global_role room42 10 ≠ "sysop"
  ∧ let σ' := final (remove_room_role 42 10 room42) in
    role_of σ' 42 10 = "user"
    ∧ authorize (global_role σ' 10) (caller_role σ' 42 10) "kick" = false
    ∧ (∀ k u, (k, u) ≠ (42, 10) → role_of σ' k u = role_of room42 k u).
Proof.
  assert (global_role room42 10 ≠ "sysop") as H by (vm_compute; discriminate).
  split; [exact H|].
  exact (removed_role_loses_moderation 42 10 "kick" room42 H).
Defined.

(** ** Bans and identity *)

Section Blind.
Context {A B : Type}.

Lemma blind_ret (a : A) : bans_blind (ret a).
Proof. by intros t σ. Qed.

Lemma blind_raise (e : exn) : bans_blind (raise (A:=A) e).
Proof. by intros t σ. Qed.

Lemma blind_emit (a : action) : bans_blind (emit a).
Proof. by intros t σ. Qed.

Lemma blind_send_json w e : bans_blind (send_json w e).
Proof.
  intros t σ. unfold send_json, with_bans. simpl.
  by destruct (decide (w ∈ closed σ)).
Qed.

Lemma blind_bind (m : M A) (k : A → M B) :
  bans_blind m → (∀ a, bans_blind (k a)) → bans_blind (bind m k).
Proof.
  intros Hm Hk t σ. unfold bind. cbv zeta. rewrite !Hm. unfold with_bans. simpl.
  destruct (result (m σ)) as [a|e]; [|done]. by rewrite Hk.
Qed.

Lemma blind_try_except (m : M A) (h : exn → M A) :
  bans_blind m → (∀ e, bans_blind (h e)) → bans_blind (try_except m h).
Proof.
  intros Hm Hh t σ. unfold try_except. cbv zeta. rewrite !Hm. unfold with_bans.
  destruct (m σ) as [σ1 tr [a|e]]; simpl; [done|]. by rewrite Hh.
Qed.

Lemma blind_gets (f : world → A) :
  (∀ t σ, f (set_room_bans t σ) = f σ) → bans_blind (gets f).
Proof. intros Hf t σ. unfold gets. by rewrite Hf. Qed.

End Blind.

Lemma blind_modify (f : world → world) :
  (∀ t σ, f (set_room_bans t σ) = set_room_bans t (f σ)) →
  bans_blind (modify f).
Proof. intros Hf t σ. unfold modify, with_bans. simpl. by rewrite Hf. Qed.

Ltac blind_steps :=
  repeat match goal with
  | |- ∀ _, _ => intros ?
  | |- bans_blind (if ?b then _ else _) => destruct b
  | |- bans_blind (match ?x with Some _ => _ | None => _ end) =>
      destruct x as [[? ?]|]
  | |- bans_blind (bind _ _) => apply blind_bind
  | |- bans_blind (try_except _ _) => apply blind_try_except
  | |- bans_blind (gets _) => apply blind_gets; done
  | |- bans_blind (modify _) => apply blind_modify; done
  | |- bans_blind (ret _) => apply blind_ret
  | |- bans_blind (raise _) => apply blind_raise
  | |- bans_blind (emit _) => apply blind_emit
  | |- bans_blind (send_json _ _) => apply blind_send_json
  | |- bans_blind (ws_close _ _) => unfold ws_close
  end.

Lemma blind_broadcast room_id message : bans_blind (broadcast room_id message).
Proof. intros t σ. by rewrite !broadcast_spec. Qed.

Lemma blind_disconnect room_id ws : bans_blind (disconnect room_id ws).
Proof.
  unfold disconnect. apply blind_bind; [by apply blind_gets|]. intros l.
  destruct (disconnect_loop l ws l None) as [[l' [c|]]|e]; blind_steps.
Qed.

Lemma blind_assign room_id target_id role :
  bans_blind (assign room_id target_id role).
Proof.
  unfold assign, assign_room_role, set_conn_role.
  blind_steps; apply blind_broadcast.
Qed.

Lemma blind_handle_command room_id caller_id command target_id reason :
  bans_blind (handle_command room_id caller_id command target_id reason).
Proof. unfold handle_command. blind_steps; apply blind_assign. Qed.

Section Bans.

Variable py_int : string → option Z.
Variable py_str : Z → string.
Variable b64decode : string → option string.

Hypothesis py_int_str : ∀ n, py_int (py_str n) = Some n.

Lemma blind_on_message room_id user_id username e data :
  bans_blind (on_message b64decode room_id user_id username e data).
Proof.
  unfold on_message, image_upload.
  destruct (in_data data); blind_steps;
    try apply blind_broadcast; try apply blind_handle_command.
  all: destruct (b64decode _); blind_steps; apply blind_broadcast.
Qed.

Lemma blind_message_loop room_id user_id username inputs :
  bans_blind (message_loop b64decode room_id user_id username inputs).
Proof.
  induction inputs as [|[e [data|x]] inputs IH]; simpl.
  - apply blind_ret.
  - apply blind_bind; [apply blind_on_message|]. intros _. apply IH.
  - apply blind_raise.
Qed.

Lemma blind_teardown room_id ws : bans_blind (teardown room_id ws).
Proof.
  unfold teardown. blind_steps;
    [apply blind_disconnect|apply blind_broadcast].
Qed.

Lemma blind_serve room_id user_id username ws inputs :
  bans_blind (serve b64decode room_id user_id username ws inputs).
Proof.
  intros t σ. unfold serve. cbv zeta. rewrite !blind_message_loop.
  unfold with_bans.
  destruct (message_loop _ _ _ _ _ σ) as [σ1 tr [a|x]]; simpl; [done|].
  rewrite !blind_teardown. unfold with_bans. simpl. done.
Qed.

(** X19. A ban does not reach a session that is already open: with the
    ban written, the session's loop and teardown send the same events,
    end the same way and leave the same rooms and roles as without it.
    Only a new connection attempt reads the bans. *)
Theorem ban_does_not_reach_open_sessions room_id' user_id' reason
    room_id user_id username ws inputs σ :
  let σ' := final (ban_user room_id' user_id' reason σ) in
  let r := serve b64decode room_id user_id username ws inputs σ in
  let r' := serve b64decode room_id user_id username ws inputs σ' in
  trace r' = trace r
  ∧ result r' = result r
  ∧ rooms (final r') = rooms (final r)
  ∧ room_roles (final r') = room_roles (final r)
  ∧ room_bans (final r') = room_bans σ'.
Proof.
  intros σ' r r'. subst r r' σ'. unfold ban_user, modify. cbn [final].
  by rewrite blind_serve.
Qed.

(** X22. The user the HTTP pages see behind a cookie is the user the
    WebSocket endpoint joins the room as, whatever the query parameter
    says, unless that user is banned from the room, and provided the
    room id of the URL and the id of the user are integers of at most
    64 bits; otherwise, as for a room id beyond 64 bits, the lookup of
    the ban raises [OverflowError] before the socket is accepted, and
    nothing is sent or registered. *)
Theorem cookie_identity_is_the_session_identity websocket room_id cookie
    query_params inputs σ user :
  current_user py_int σ cookie = Some user →
  is_banned σ room_id (u_id user) = false →
  websocket_endpoint py_int py_str b64decode websocket room_id
    cookie query_params inputs σ
  = if sqlite_int room_id && sqlite_int (u_id user)
    then (let* _ := connect room_id websocket user in
          serve b64decode room_id (u_id user) (u_username user)
            websocket inputs) σ
    else Run σ [] (Raised OverflowError).
Proof.
  intros Hcur Hban. rewrite websocket_endpoint_token by done.
  assert (token_id py_int cookie query_params ≫= get_user_by_id σ = Some user)
    as Hauth.
  { unfold current_user in Hcur. unfold token_id, identity_token.
    destruct cookie as [c|]; [|done].
    destruct (String.eqb c ""); [done|]. simpl in *.
    by destruct (py_int c). }
  destruct (token_id py_int cookie query_params) as [n|]; [|done].
  simpl in Hauth. rewrite Hauth, Hban. cbn [forallb].
  by rewrite andb_true_r.
Qed.
End Bans.


Lemma cookie_identity_is_the_session_identity_witness :
  current_user decimal_int room42 (Some "12") = Some (User 12 "C" "user")
  ∧ is_banned room42 42 12 = false
  ∧ is_banned room42 9223372036854775808 12 = false
  ∧ websocket_endpoint decimal_int decimal_str b64_table 9%nat 42
      (Some "12") (Some "10") [] room42
    = (let* _ := connect 42 9 (User 12 "C" "user") in
       serve b64_table 42 12 "C" 9 []) room42
  ∧ websocket_endpoint decimal_int decimal_str b64_table 9%nat
      9223372036854775808 (Some "12") (Some "10") [] room42
    = Run room42 [] (Raised OverflowError).
Proof.
  split; [reflexivity|]. split; [reflexivity|]. split; [reflexivity|].
  split.
  - exact (cookie_identity_is_the_session_identity decimal_int decimal_str
             b64_table decimal_int_str 9%nat 42 (Some "12") (Some "10") []
             room42 (User 12 "C" "user") eq_refl eq_refl).
  - exact (cookie_identity_is_the_session_identity decimal_int decimal_str
             b64_table decimal_int_str 9%nat 9223372036854775808 (Some "12")
             (Some "10") [] room42 (User 12 "C" "user") eq_refl eq_refl).
Defined.



(** ** Accounts and rooms *)

Lemma max_key_ge {A : Type} (t : gmap Z A) k x :
  t !! k = Some x → k ≤ max_key t.
Proof.
  unfold max_key. revert k x.
  apply (map_fold_weak_ind (λ r (m : gmap Z A), ∀ k x, m !! k = Some x → k ≤ r)).
  - intros k x. by rewrite lookup_empty.
  - intros i y m r _ IH k x. destruct (decide (k = i)) as [->|Hk].
    + lia.
    + rewrite lookup_insert_ne by done. intros H. specialize (IH _ _ H). lia.
Qed.

Lemma next_rowid_fresh {A : Type} seq (t : gmap Z A) :
  t !! next_rowid seq t = None.
Proof.
  destruct (t !! next_rowid seq t) as [x|] eqn:H; [|done].
  apply max_key_ge in H. unfold next_rowid in H. lia.
Qed.

Lemma next_rowid_after {A : Type} seq (t : gmap Z A) : seq < next_rowid seq t.
Proof. unfold next_rowid. lia. Qed.

(** Of a list where one entry alone passes [f], [omap f] keeps that
    entry alone. *)
Lemma omap_unique {A B : Type} (f : A → option B) (l : list A) x y :
  NoDup l → x ∈ l → f x = Some y → (∀ z, z ∈ l → z ≠ x → f z = None) →
  omap f l = [y].
Proof.
  induction l as [|a l IH]; intros Hnd Hin Hx Hothers.
  - by apply elem_of_nil in Hin.
  - apply NoDup_cons in Hnd as [Ha Hnd]. cbn [omap list_omap].
    apply elem_of_cons in Hin as [<-|Hin].
    + rewrite Hx. f_equal.
      clear IH. induction l as [|b l IH]; [done|].
      cbn [omap list_omap]. rewrite Hothers.
      * apply IH.
        -- intros ?. apply Ha. by right.
        -- by apply NoDup_cons in Hnd as [_ ?].
        -- intros z Hz. apply Hothers. apply elem_of_cons in Hz as [->|Hz].
           ++ by left.
           ++ right. by right.
      * right. by left.
      * intros ->. apply Ha. by left.
    + rewrite (Hothers a); [|by left|by intros ->].
      apply IH; try done. intros z Hz. apply Hothers. by right.
Qed.

Lemma get_user_by_email_Some s email a :
  get_user_by_email s email = Some a →
  account_at s (a_id a) = Some a ∧ a_email a = email.
Proof.
  unfold get_user_by_email. intros H.
  apply head_Some in H as [l' H].
  assert (a ∈ omap (λ kv : Z * string,
                if String.eqb kv.2 email then account_at s kv.1 else None)
             (map_to_list (user_email s))) as Hin by (rewrite H; by left).
  apply list_elem_of_omap in Hin as [[k e] [Hk Ha]]. cbn [fst snd] in Ha.
  destruct (String.eqb_spec e email) as [->|]; [|done].
  apply elem_of_map_to_list in Hk.
  unfold account_at in Ha |- *.
  destruct (users (chat s) !! k) as [[username role]|] eqn:Hu; [|done].
  rewrite Hk in Ha.
  destruct (user_password_hash s !! k) as [h|] eqn:Hh; [|done].
  injection Ha as <-. cbn [a_id a_email]. by rewrite Hu, Hk, Hh.
Qed.

Lemma current_user_str py_int py_str σ n :
  (∀ n, py_int (py_str n) = Some n) → (∀ n, py_str n ≠ "") →
  current_user py_int σ (Some (py_str n)) = get_user_by_id σ n.
Proof.
  intros Hint Hne. unfold current_user.
  destruct (String.eqb_spec (py_str n) "") as [H|_]; [by apply Hne in H|].
  cbn [negb]. by rewrite Hint.
Qed.

Lemma current_user_Some py_int σ cookie u :
  current_user py_int σ cookie = Some u →
  users σ !! u_id u = Some (u_username u, u_role u).
Proof.
  unfold current_user. destruct cookie as [c|]; [|done].
  destruct (negb (c =? "")%string); [|done].
  destruct (py_int c) as [n|]; [|done].
  unfold get_user_by_id. destruct (users σ !! n) as [[name role]|] eqn:H; [|done].
  intros [= <-]. done.
Qed.

Lemma request_user_found py_int σ cookie u :
  current_user py_int σ cookie = Some u →
  request_user py_int σ cookie = Ok (Some u).
Proof.
  unfold current_user, request_user. destruct cookie as [c|]; [|done].
  destruct (negb (c =? "")%string); [|done].
  destruct (py_int c) as [n|]; [|done]. by intros ->.
Qed.

Lemma request_user_Ok py_int σ cookie u :
  request_user py_int σ cookie = Ok u → current_user py_int σ cookie = u.
Proof.
  unfold current_user, request_user. destruct cookie as [c|]; [|by intros [=]].
  destruct (negb (c =? "")%string); [|by intros [=]].
  destruct (py_int c) as [n|]; [|by intros [=]].
  unfold bound. destruct (found _ || _); [by intros [=]|done].
Qed.

Section Accounts.

Variable py_int : string → option Z.
Variable py_str : Z → string.
Variable py_lower : string → string.
Variable argon2_hash : string → string → string.
Variable argon2_verify : string → string → bool.

Hypothesis py_int_str : ∀ n, py_int (py_str n) = Some n.
Hypothesis py_str_nonempty : ∀ n, py_str n ≠ "".
Hypothesis argon2_verify_hash :
  ∀ salt password, argon2_verify (argon2_hash salt password) password = true.

(** What a registration that passes the checks does. *)
Lemma register_post_accepted data salt s :
  field data "password" = field data "confirm_password" →
  username_taken s (strip (field data "username")) = false →
  email_taken s (py_lower (strip (field data "email"))) = false →
  let user_id := next_rowid (users_seq s) (users (chat s)) in
  register_post py_str py_lower argon2_hash data salt s
  = (Site (set_users (<[user_id := (strip (field data "username"), "user")]>
                        (users (chat s))) (chat s))
          (<[user_id := py_lower (strip (field data "email"))]> (user_email s))
          (<[user_id := argon2_hash salt (field data "password")]>
             (user_password_hash s))
          user_id (room_table s) (rooms_seq s),
     logged_in py_str user_id).
Proof.
  intros Hpw Hu He user_id. unfold register_post, create_user.
  rewrite <- Hpw, String.eqb_refl. cbn [negb]. by rewrite Hu, He.
Qed.


(** X24. A registration whose two passwords agree and whose trimmed
    user name and lower-cased trimmed email are free creates the account
    under an id no user had, with the global role ["user"], and answers
    with a redirect to [/rooms] that sets the cookie to that id; read
    back through [current_user], the cookie names the new user.  No
    other user, role, ban, connection or room changes. *)
Theorem registration_logs_the_new_user_in data salt s :
  field data "password" = field data "confirm_password" →
  username_taken s (strip (field data "username")) = false →
  email_taken s (py_lower (strip (field data "email"))) = false →
  let r := register_post py_str py_lower argon2_hash data salt s in
  ∃ user_id,
    r.2 = RedirectResponse "/rooms" 303
            (set_cookie "user_id" (py_str user_id) 604800)
    ∧ users (chat s) !! user_id = None
    ∧ current_user py_int (chat r.1) (Some (py_str user_id))
      = Some (User user_id (strip (field data "username")) "user")
    ∧ (∀ k, k ≠ user_id →
         get_user_by_id (chat r.1) k = get_user_by_id (chat s) k)
    ∧ room_roles (chat r.1) = room_roles (chat s)
    ∧ room_bans (chat r.1) = room_bans (chat s)
    ∧ rooms (chat r.1) = rooms (chat s)
    ∧ room_table r.1 = room_table s.
Proof.
  intros Hpw Hu He r. subst r.
  rewrite (register_post_accepted _ _ _ Hpw Hu He). cbn [fst snd chat room_table].
  exists (next_rowid (users_seq s) (users (chat s))).
  split; [done|]. split; [apply next_rowid_fresh|].
  split.
  { rewrite current_user_str by done. unfold get_user_by_id. cbn [users set_users].
    by rewrite lookup_insert_eq. }
  split; [|done].
  intros k Hk. unfold get_user_by_id. cbn [users set_users].
  by rewrite lookup_insert_ne.
Qed.


Lemma get_user_by_email_registered data salt s :
  field data "password" = field data "confirm_password" →
  username_taken s (strip (field data "username")) = false →
  email_taken s (py_lower (strip (field data "email"))) = false →
  let user_id := next_rowid (users_seq s) (users (chat s)) in
  get_user_by_email (register_post py_str py_lower argon2_hash data salt s).1
    (py_lower (strip (field data "email")))
  = Some (Account user_id (strip (field data "username"))
            (py_lower (strip (field data "email")))
            (argon2_hash salt (field data "password")) "user").
Proof.
  intros Hpw Hu He user_id.
  rewrite (register_post_accepted _ _ _ Hpw Hu He). cbn [fst]. fold user_id.
  unfold get_user_by_email. cbn [user_email].
  set (email := py_lower (strip (field data "email"))).
  erewrite (omap_unique _ _ (user_id, email)); [done| | | |].
  - apply NoDup_map_to_list.
  - apply elem_of_map_to_list. apply lookup_insert_eq.
  - cbn [fst snd]. rewrite String.eqb_refl. unfold account_at.
    cbn [chat users set_users user_email user_password_hash].
    by rewrite !lookup_insert_eq.
  - intros [k e] Hk Hne. cbn [fst snd].
    destruct (String.eqb_spec e email) as [->|]; [|done].
    apply elem_of_map_to_list in Hk.
    destruct (decide (k = user_id)) as [->|Hkne]; [done|].
    rewrite lookup_insert_ne in Hk by done.
    unfold email_taken in He. apply bool_decide_eq_false in He.
    destruct He. apply map_Exists_lookup. by eexists _, _.
Qed.

(** X26. After a registration, a login with the same email (up to case
    and surrounding whitespace) and the same password is answered as the
    registration was, with the cookie of the new account; the
    administrators' login turns the same account away; and a password
    the hasher does not verify is answered with "Invalid credentials.". *)
Theorem login_after_registration data salt data' s :
  field data "password" = field data "confirm_password" →
  username_taken s (strip (field data "username")) = false →
  email_taken s (py_lower (strip (field data "email"))) = false →
  py_lower (strip (field data' "email")) = py_lower (strip (field data "email")) →
  let r := register_post py_str py_lower argon2_hash data salt s in
  (field data' "password" = field data "password" →
     login_post py_str py_lower argon2_verify data' r.1 = r.2
     ∧ admin_login_post py_str py_lower argon2_verify data' r.1
       = TemplateResponse (admin_login_html (Some "Not an administrator.")))
  ∧ (argon2_verify (argon2_hash salt (field data "password"))
       (field data' "password") = false →
     login_post py_str py_lower argon2_verify data' r.1
     = TemplateResponse (login_html (Some "Invalid credentials."))).
Proof.
  intros Hpw Hu He Hemail r.
  pose proof (get_user_by_email_registered _ salt _ Hpw Hu He) as Hget.
  cbv zeta in Hget. fold r in Hget.
  unfold login_post, admin_login_post. rewrite Hemail, Hget.
  cbn [a_password_hash a_id a_role]. unfold verify_password.
  split.
  - intros ->. rewrite argon2_verify_hash. subst r.
    rewrite (register_post_accepted _ _ _ Hpw Hu He). done.
  - by intros ->.
Qed.

(** X27. Neither login sets a cookie without a verified password: an
    answer of [POST /login] or [POST /admin] that is a redirect carries
    the cookie of an account that has the email of the form and whose
    stored hash verifies the password of the form, and [current_user]
    reads that cookie as that account; on [/admin] the account is a
    sysop. *)
Theorem login_cookie_names_verified_account data s answer url code cookie :
  answer = login_post py_str py_lower argon2_verify data s
  ∨ answer = admin_login_post py_str py_lower argon2_verify data s →
  answer = RedirectResponse url code cookie →
  ∃ a,
    account_at s (a_id a) = Some a
    ∧ a_email a = py_lower (strip (field data "email"))
    ∧ argon2_verify (a_password_hash a) (field data "password") = true
    ∧ cookie = set_cookie "user_id" (py_str (a_id a)) 604800
    ∧ current_user py_int (chat s) (Some (py_str (a_id a)))
      = Some (User (a_id a) (a_username a) (a_role a))
    ∧ (answer = admin_login_post py_str py_lower argon2_verify data s →
       a_role a = "sysop").
Proof.
  intros Hwhich Hanswer.
  assert (∃ a, get_user_by_email s (py_lower (strip (field data "email"))) = Some a
               ∧ argon2_verify (a_password_hash a) (field data "password") = true
               ∧ cookie = set_cookie "user_id" (py_str (a_id a)) 604800
               ∧ (answer = admin_login_post py_str py_lower argon2_verify data s →
                  a_role a = "sysop")) as (a & Hget & Hv & Hc & Hrole).
  { destruct Hwhich as [H|H]; rewrite H in Hanswer |- *.
    - unfold login_post, admin_login_post, verify_password in *.
      destruct (get_user_by_email s _) as [a|]; [|done].
      destruct (argon2_verify _ _) eqn:Hv; [|done].
      injection Hanswer as <- <- <-. exists a. repeat split; try done.
      destruct (String.eqb_spec (a_role a) "sysop"); [done|]. cbn [negb]. done.
    - unfold admin_login_post, verify_password in *.
      destruct (get_user_by_email s _) as [a|]; [|done].
      destruct (argon2_verify _ _) eqn:Hv; [|done].
      destruct (String.eqb_spec (a_role a) "sysop") as [Hr|]; [|done].
      cbn [negb] in Hanswer. injection Hanswer as <- <- <-. by exists a. }
  exists a. apply get_user_by_email_Some in Hget as [Hat Hmail].
  repeat split; try done.
  rewrite current_user_str by done. unfold account_at in Hat.
  unfold get_user_by_id.
  destruct (users (chat s) !! a_id a) as [[username role]|]; [|done].
  destruct (user_email s !! a_id a); [|done].
  destruct (user_password_hash s !! a_id a); [|done].
  injection Hat as <-. done.
Qed.

(** X28. A logged-in user who creates a room under a name that is not
    blank is redirected to the page of a room id no room had, whose row
    holds the trimmed name and description and the creator as owner; the
    creator holds the role ["owner"] there, so that each of the four
    commands is allowed to them; no other role row, room, user or
    connection changes. *)
Theorem room_creator_becomes_owner cookie data s user command :
  current_user py_int (chat s) cookie = Some user →
  strip (field data "name") ≠ "" →
  command ∈ ["kick"; "warn"; "assign_host"; "assign_owner"] →
  let r := rooms_create py_int py_str cookie data s in
  ∃ room_id,
    r.2 = RedirectResponse ("/rooms/" ++ py_str room_id)%string 303 no_cookie
    ∧ room_table s !! room_id = None
    ∧ get_room r.1 room_id
      = Some (RoomRow room_id (strip (field data "name"))
                (strip (field data "description"))
                (u_id user) (u_username user))
    ∧ role_of (chat r.1) room_id (u_id user) = "owner"
    ∧ authorize (global_role (chat r.1) (u_id user))
        (caller_role (chat r.1) room_id (u_id user)) command = true
    ∧ (∀ k u, (k, u) ≠ (room_id, u_id user) →
         room_roles (chat r.1) !! (k, u) = room_roles (chat s) !! (k, u))
    ∧ (∀ k, k ≠ room_id → get_room r.1 k = get_room s k)
    ∧ users (chat r.1) = users (chat s)
    ∧ rooms (chat r.1) = rooms (chat s).
Proof.
  intros Huser Hname Hcmd r. subst r. unfold rooms_create.
  rewrite (request_user_found _ _ _ _ Huser).
  destruct (String.eqb_spec (strip (field data "name")) "") as [|_]; [done|].
  unfold create_room. cbn [fst snd chat room_table].
  set (room_id := next_rowid (rooms_seq s) (room_table s)).
  exists room_id. split; [done|]. split; [apply next_rowid_fresh|].
  apply current_user_Some in Huser as Hrow.
  split.
  { unfold get_room. cbn [room_table chat users set_room_roles].
    by rewrite lookup_insert_eq, Hrow. }
  assert (role_of (set_room_roles
            (<[(room_id, u_id user):="owner"]> (room_roles (chat s))) (chat s))
            room_id (u_id user) = "owner") as Hrole.
  { unfold role_of. cbn [room_roles set_room_roles]. by rewrite lookup_insert_eq. }
  split; [done|]. split.
  { rewrite caller_role_role_of, Hrole.
    repeat (apply elem_of_cons in Hcmd as [->|Hcmd]);
      [..|by apply elem_of_nil in Hcmd];
      unfold authorize, has_privilege;
      destruct (global_role _ _ =? "sysop")%string; reflexivity. }
  split.
  { intros k u Hne. cbn [room_roles set_room_roles]. by rewrite lookup_insert_ne. }
  split; [|done].
  intros k Hk. unfold get_room. cbn [room_table chat users set_room_roles].
  by rewrite lookup_insert_ne.
Qed.

End Accounts.

Lemma decimal_str_nonempty n : decimal_str n ≠ "".
Proof.
  unfold decimal_str. destruct n as [|p|p]; cbn.
  - done.
  - pose proof (DecimalPos.Unsigned.to_uint_nonnil p) as H.
    destruct (Pos.to_uint p); try done.
  - done.
Qed.

Lemma cleartext_verify_hash salt password :
  cleartext_verify (cleartext_hash salt password) password = true.
Proof. apply String.eqb_refl. Qed.

Section Pages.

Variable py_int : string → option Z.
Variable py_str : Z → string.
Variable b64decode : string → option string.

Hypothesis py_int_str : ∀ n, py_int (py_str n) = Some n.

Lemma current_user_authenticate σ cookie query_params user :
  current_user py_int σ cookie = Some user →
  authenticate py_int σ cookie query_params = Some user.
Proof.
  unfold current_user, authenticate, identity_token.
  destruct cookie as [c|]; [|done].
  destruct (String.eqb c ""); [done|]. cbn.
  by destruct (py_int c).
Qed.

Lemma broadcasts_connect room_id ws u σ :
  let role := role_of σ room_id (u_id u) in
  broadcasts (trace (connect room_id ws u σ))
  = [(room_id, user_joined (u_id u) (u_username u) role
                 (member_of <$> (room_conns σ room_id
                                   ++ [Conn ws (u_id u) (u_username u) role])))].
Proof.
  intros role. rewrite connect_spec. cbn [trace broadcasts].
  fold (caller_role σ room_id (u_id u)). rewrite caller_role_role_of.
  cbn. by rewrite broadcasts_sends.
Qed.

(** X29. Whoever is served the page of a room is let into its socket:
    when [room_detail] answers with the room template, the cookie names
    the user of the page, the room exists, the user is not banned, and a
    connection attempt under the same cookie is accepted as that user;
    the role on the page is the role the join announces. *)
Theorem room_page_and_socket_agree cookie room_id s room user role roles
    websocket query_params inputs :
  room_detail py_int cookie room_id s
    = TemplateResponse (room_html room user role roles) →
  let σ := chat s in
  current_user py_int σ cookie = Some user
  ∧ get_room s room_id = Some room
  ∧ is_banned σ room_id (u_id user) = false
  ∧ role = role_of σ room_id (u_id user)
  ∧ websocket_endpoint py_int py_str b64decode websocket room_id
      cookie query_params inputs σ
    = (let* _ := connect room_id websocket user in
       serve b64decode room_id (u_id user) (u_username user) websocket inputs) σ
  ∧ broadcasts (trace (connect room_id websocket user σ))
    = [(room_id, user_joined (u_id user) (u_username user) role
                   (member_of <$> (room_conns σ room_id
                      ++ [Conn websocket (u_id user) (u_username user) role])))].
Proof.
  intros Hpage σ. subst σ. unfold room_detail in Hpage.
  destruct (request_user py_int (chat s) cookie) as [[u|]|] eqn:Hreq;
    [|done..].
  apply request_user_Ok in Hreq as Hcur.
  unfold bound at 1 in Hpage.
  destruct (found (get_room s room_id) || forallb sqlite_int [room_id]);
    [|done].
  destruct (get_room s room_id) as [row|]; [|done].
  unfold bound in Hpage.
  destruct (is_banned (chat s) room_id (u_id u)) eqn:Hban; [done|].
  cbn [id orb] in Hpage.
  destruct (forallb sqlite_int [room_id; u_id u]) eqn:Hint; [|done].
  injection Hpage as -> -> <- <-.
  fold (caller_role (chat s) room_id (u_id user)). rewrite caller_role_role_of.
  repeat split; try done.
  - apply websocket_endpoint_accepts; try done.
    by apply current_user_authenticate.
  - apply broadcasts_connect.
Qed.

(** X30. The socket endpoint never looks the room up: for a room id of
    at most 64 bits that has no row, a logged-in user who is not banned
    is told "Room not found" by the page, and is yet accepted on the
    socket of that id and registered in its list. *)
Theorem socket_does_not_look_the_room_up cookie room_id s user websocket
    query_params inputs :
  current_user py_int (chat s) cookie = Some user →
  get_room s room_id = None →
  is_banned (chat s) room_id (u_id user) = false →
  sqlite_int room_id = true →
  sqlite_int (u_id user) = true →
  websocket ∉ closed (chat s) →
  let σ := chat s in
  let entry := Conn websocket (u_id user) (u_username user)
                 (role_of σ room_id (u_id user)) in
  room_detail py_int cookie room_id s = HTMLResponse "Room not found" 404
  ∧ websocket_endpoint py_int py_str b64decode websocket room_id
      cookie query_params inputs σ
    = (let* _ := connect room_id websocket user in
       serve b64decode room_id (u_id user) (u_username user) websocket inputs) σ
  ∧ head (trace (connect room_id websocket user σ)) = Some (Accept websocket)
  ∧ entry ∈ room_conns (final (connect room_id websocket user σ)) room_id.
Proof.
  intros Hcur Hroom Hban Hr Hu Hopen σ entry. subst σ entry.
  split.
  { unfold room_detail. rewrite (request_user_found _ _ _ _ Hcur), Hroom.
    unfold bound. cbn [found orb forallb]. by rewrite Hr. }
  split.
  { apply websocket_endpoint_accepts; try done.
    - by apply current_user_authenticate.
    - cbn [forallb]. by rewrite Hr, Hu. }
  rewrite connect_spec. cbn [trace final head]. split; [done|].
  rewrite room_conns_set_rooms, lookup_insert_eq.
  fold (caller_role (chat s) room_id (u_id user)). rewrite caller_role_role_of.
  apply list_elem_of_filter. split; [done|].
  apply elem_of_app. right. by left.
Qed.

End Pages.

Lemma registration_logs_the_new_user_in_witness :
  field sign_up "password" = field sign_up "confirm_password"
  ∧ username_taken site42 (strip (field sign_up "username")) = false
  ∧ email_taken site42 (ascii_lower (strip (field sign_up "email"))) = false
  ∧ let r := register_post decimal_str ascii_lower cleartext_hash sign_up
               "salt" site42 in
    ∃ user_id,
      r.2 = RedirectResponse "/rooms" 303
              (set_cookie "user_id" (decimal_str user_id) 604800)
      ∧ users (chat site42) !! user_id = None
      ∧ current_user decimal_int (chat r.1) (Some (decimal_str user_id))
        = Some (User user_id (strip (field sign_up "username")) "user")
      ∧ (∀ k, k ≠ user_id →
           get_user_by_id (chat r.1) k = get_user_by_id (chat site42) k)
      ∧ room_roles (chat r.1) = room_roles (chat site42)
      ∧ room_bans (chat r.1) = room_bans (chat site42)
      ∧ rooms (chat r.1) = rooms (chat site42)
      ∧ room_table r.1 = room_table site42.
Proof.
  split; [reflexivity|]. split; [vm_compute; reflexivity|].
  split; [vm_compute; reflexivity|].
  apply (registration_logs_the_new_user_in decimal_int decimal_str ascii_lower
           cleartext_hash decimal_int_str decimal_str_nonempty sign_up "salt"
           site42);
    vm_compute; reflexivity.
Defined.


Lemma login_after_registration_witness :
  field sign_up "password" = field sign_up "confirm_password"
  ∧ username_taken site42 (strip (field sign_up "username")) = false
  ∧ email_taken site42 (ascii_lower (strip (field sign_up "email"))) = false
  ∧ ascii_lower (strip (field log_in "email"))
    = ascii_lower (strip (field sign_up "email"))
  ∧ field log_in "password" = field sign_up "password"
  ∧ let r := register_post decimal_str ascii_lower cleartext_hash sign_up
               "salt" site42 in
    login_post decimal_str ascii_lower cleartext_verify log_in r.1 = r.2
    ∧ admin_login_post decimal_str ascii_lower cleartext_verify log_in r.1
      = TemplateResponse (admin_login_html (Some "Not an administrator.")).
Proof.
  split; [reflexivity|]. split; [vm_compute; reflexivity|].
  split; [vm_compute; reflexivity|]. split; [vm_compute; reflexivity|].
  split; [reflexivity|].
  apply (login_after_registration decimal_str ascii_lower cleartext_hash
           cleartext_verify cleartext_verify_hash sign_up "salt" log_in site42);
    vm_compute; reflexivity.
Defined.

Lemma login_cookie_names_verified_account_witness :
  let answer := login_post decimal_str ascii_lower cleartext_verify log_in_D
                  site42 in
  answer = RedirectResponse "/rooms" 303 (set_cookie "user_id" "13" 604800)
  ∧ ∃ a,
      account_at site42 (a_id a) = Some a
      ∧ a_email a = ascii_lower (strip (field log_in_D "email"))
      ∧ cleartext_verify (a_password_hash a) (field log_in_D "password") = true
      ∧ set_cookie "user_id" "13" 604800
        = set_cookie "user_id" (decimal_str (a_id a)) 604800
      ∧ current_user decimal_int (chat site42) (Some (decimal_str (a_id a)))
        = Some (User (a_id a) (a_username a) (a_role a))
      ∧ (answer = admin_login_post decimal_str ascii_lower cleartext_verify
                    log_in_D site42 →
         a_role a = "sysop").
Proof.
  intros answer. split; [vm_compute; reflexivity|].
  apply (login_cookie_names_verified_account decimal_int decimal_str
           ascii_lower cleartext_verify decimal_int_str decimal_str_nonempty
           log_in_D site42 answer "/rooms" 303);
    [left; reflexivity|vm_compute; reflexivity].
Defined.

Lemma room_creator_becomes_owner_witness :
  current_user decimal_int (chat site42) (Some "12") = Some (User 12 "C" "user")
  ∧ strip (field new_room "name") ≠ ""
  ∧ "assign_owner" ∈ ["kick"; "warn"; "assign_host"; "assign_owner"]
  ∧ let r := rooms_create decimal_int decimal_str (Some "12") new_room site42 in
    ∃ room_id,
      r.2 = RedirectResponse ("/rooms/" ++ decimal_str room_id)%string 303
              no_cookie
      ∧ room_table site42 !! room_id = None
      ∧ get_room r.1 room_id
        = Some (RoomRow room_id (strip (field new_room "name"))
                  (strip (field new_room "description")) 12 "C")
      ∧ role_of (chat r.1) room_id 12 = "owner"
      ∧ authorize (global_role (chat r.1) 12)
          (caller_role (chat r.1) room_id 12) "assign_owner" = true
      ∧ (∀ k u, (k, u) ≠ (room_id, 12) →
           room_roles (chat r.1) !! (k, u) = room_roles (chat site42) !! (k, u))
      ∧ (∀ k, k ≠ room_id → get_room r.1 k = get_room site42 k)
      ∧ users (chat r.1) = users (chat site42)
      ∧ rooms (chat r.1) = rooms (chat site42).
Proof.
  split; [reflexivity|]. split; [vm_compute; discriminate|].
  split; [repeat constructor|].
  apply (room_creator_becomes_owner decimal_int decimal_str (Some "12")
           new_room site42 (User 12 "C" "user") "assign_owner");
    [reflexivity|vm_compute; discriminate|repeat constructor].
Defined.

Lemma room_page_and_socket_agree_witness :
  let σ := chat site42 in
  room_detail decimal_int (Some "11") 42 site42
    = TemplateResponse (room_html (RoomRow 42 "Lobby" "" 10 "A")
                          (User 11 "B" "user") "host" (get_room_roles σ 42))
  ∧ websocket_endpoint decimal_int decimal_str b64_table 9%nat 42
      (Some "11") None [] σ
    = (let* _ := connect 42 9 (User 11 "B" "user") in
       serve b64_table 42 11 "B" 9 []) σ
  ∧ broadcasts (trace (connect 42 9 (User 11 "B" "user") σ))
    = [(42, user_joined 11 "B" "host"
              (member_of <$> (room_conns σ 42 ++ [Conn 9 11 "B" "host"])))].
Proof.
  intros σ.
  assert (room_detail decimal_int (Some "11") 42 site42
          = TemplateResponse (room_html (RoomRow 42 "Lobby" "" 10 "A")
                                (User 11 "B" "user") "host" (get_room_roles σ 42)))
    as Hpage by (vm_compute; reflexivity).
  split; [exact Hpage|].
  pose proof (room_page_and_socket_agree decimal_int decimal_str b64_table
                decimal_int_str (Some "11") 42 site42 _ _ _ _ 9%nat None []
                Hpage) as (_ & _ & _ & _ & H1 & H2).
  split; [exact H1|exact H2].
Defined.

Lemma socket_does_not_look_the_room_up_witness :
  let σ := chat site42 in
  current_user decimal_int σ (Some "12") = Some (User 12 "C" "user")
  ∧ get_room site42 7 = None
  ∧ is_banned σ 7 12 = false
  ∧ sqlite_int 7 = true
  ∧ sqlite_int 12 = true
  ∧ (9%nat ∉ closed σ)
  ∧ room_detail decimal_int (Some "12") 7 site42
    = HTMLResponse "Room not found" 404
  ∧ websocket_endpoint decimal_int decimal_str b64_table 9%nat 7
      (Some "12") None [] σ
    = (let* _ := connect 7 9 (User 12 "C" "user") in
       serve b64_table 7 12 "C" 9 []) σ
  ∧ Conn 9 12 "C" (role_of σ 7 12)
    ∈ room_conns (final (connect 7 9 (User 12 "C" "user") σ)) 7.
Proof.
  intros σ.
  assert (9%nat ∉ closed σ) as Hopen.
  { apply (bool_decide_unpack _). vm_compute. reflexivity. }
  assert (current_user decimal_int σ (Some "12") = Some (User 12 "C" "user"))
    as Hcur by (vm_compute; reflexivity).
  assert (get_room site42 7 = None) as Hroom by (vm_compute; reflexivity).
  assert (is_banned σ 7 12 = false) as Hban by (vm_compute; reflexivity).
  split; [exact Hcur|]. split; [exact Hroom|]. split; [exact Hban|].
  split; [reflexivity|]. split; [reflexivity|].
  split; [exact Hopen|].
  pose proof (socket_does_not_look_the_room_up decimal_int decimal_str
                b64_table decimal_int_str (Some "12") 7 site42
                (User 12 "C" "user") 9%nat None [] Hcur Hroom Hban
                eq_refl eq_refl Hopen)
    as (H1 & H2 & _ & H3).
  split; [exact H1|]. split; [exact H2|exact H3].
Defined.

(** On the page of a room, an integer beyond 64 bits in the URL or in
    the cookie leaves the handler as an [OverflowError]. *)
Example oversized_integers_on_the_page :
  room_detail decimal_int (Some "12") 9223372036854775808 site42
  = ServerError OverflowError
  ∧ room_detail decimal_int (Some "9223372036854775808") 42 site42
    = ServerError OverflowError
  ∧ room_detail decimal_int (Some "99") 42 site42
    = RedirectResponse "/login" 302 no_cookie
  ∧ room_detail decimal_int (Some "12") 7 site42
    = HTMLResponse "Room not found" 404.
Proof. split_and!; vm_compute; reflexivity. Qed.
